(** * attorch/dataset.py: dataset adapters, transforms and [to_variable]

    A shallow embedding of [attorch/dataset.py].  Python objects are
    modelled by a small universe of values, exceptions by an explicit
    [result] type, attribute mutation by state passing, and the
    generator [to_variable] by a function that returns what was yielded
    together with the way the generator ended. *)

From Stdlib Require Import ZArith.
From stdpp Require Import base option list strings gmap.

Local Open Scope Z_scope.
Set Warnings "-register-all".

(** ** Exceptions and fallible computations *)

Inductive exn : Type :=
| AssertionError (msg : string)
| IndexError
| TypeError
| KeyError (key : string)
| AttributeError (name : string).

Inductive result (A : Type) : Type :=
| Ok (a : A)
| Raise (e : exn).

Arguments Ok {A} a.
Arguments Raise {A} e.

Definition bind {A B} (c : result A) (k : A → result B) : result B :=
  match c with
  | Ok a => k a
  | Raise e => Raise e
  end.

Notation "x <- c ;; k" := (bind c (fun x => k))
  (at level 100, c at next level, right associativity).

(** [tuple(f(x) for x in xs)]: the elements are evaluated in order and
    the first exception ends the evaluation. *)
Fixpoint for_each {A B} (f : A → result B) (xs : list A) : result (list B) :=
  match xs with
  | [] => Ok []
  | x :: rest =>
      y <- f x ;;
      ys <- for_each f rest ;;
      Ok (y :: ys)
  end.

(** [assert cond, msg] *)
Definition assert (cond : bool) (msg : string) : result unit :=
  if cond then Ok tt else Raise (AssertionError msg).

(** [seq[i]] for an integer [i] on a sequence of known length: negative
    indices count from the end, anything else out of range raises
    [IndexError]. *)
Definition seq_getitem {A} (xs : list A) (i : Z) : result A :=
  let n := Z.of_nat (length xs) in
  let j := if i <? 0 then i + n else i in
  if (0 <=? j) && (j <? n) then
    match xs !! Z.to_nat j with
    | Some x => Ok x
    | None => Raise IndexError
    end
  else Raise IndexError.

(** [sub in s] on strings *)
Fixpoint contains (sub s : string) : bool :=
  String.prefix sub s ||
  match s with
  | EmptyString => false
  | String _ s' => contains sub s'
  end.

(** [sep.join(parts)] *)
Fixpoint join (sep : string) (parts : list string) : string :=
  match parts with
  | [] => ""
  | [p] => p
  | p :: rest => p +:+ sep +:+ join sep rest
  end.

(** Keyword arguments of the [Variable] constructor ([requires_grad],
    [volatile]): names with boolean values. *)
Definition kwargs : Type := list (string * bool).

Section Dataset.

(** The element type of arrays, and the cast [astype(np.float32)] on one
    element.  Both belong to numpy; nothing is assumed about them. *)
Context {scalar : Type} (to_float32 : scalar → scalar).

(** ** Arrays, tensors and Python values *)

(** An n-dimensional array is a single element (no dimension left) or
    the sequence of its slices along the first dimension.  The same type
    models [numpy.ndarray], an h5py dataset and the storage of a
    [torch] tensor. *)
Inductive ndarray : Type :=
| Item (x : scalar)
| Rows (rs : list ndarray).

(** [a.shape] (only the leading entry is exact for an empty array) *)
Fixpoint shape (a : ndarray) : list Z :=
  match a with
  | Item _ => []
  | Rows rs =>
      Z.of_nat (length rs) ::
      match rs with
      | [] => []
      | r :: _ => shape r
      end
  end.

(** [len(a)]: a zero-dimensional array has no length *)
Definition ndarray_len (a : ndarray) : result Z :=
  match a with
  | Item _ => Raise TypeError
  | Rows rs => Ok (Z.of_nat (length rs))
  end.

(** [a[i]] *)
Definition ndarray_getitem (a : ndarray) (i : Z) : result ndarray :=
  match a with
  | Item _ => Raise IndexError
  | Rows rs => seq_getitem rs i
  end.

(** [a.astype(np.float32)] *)
Fixpoint astype_float32 (a : ndarray) : ndarray :=
  match a with
  | Item x => Item (to_float32 x)
  | Rows rs => Rows (map astype_float32 rs)
  end.

(** A tensor: its storage and whether it lives on the GPU. *)
Record tensor : Type := Tensor { storage : ndarray; is_cuda : bool }.

Inductive value : Type :=
| VInt (n : Z)
| VArray (a : ndarray)
| VTensor (t : tensor)
| VVariable (data : value) (kw : kwargs)
| VTuple (items : list value)
| VList (items : list value).

(** [torch.from_numpy(v)] *)
Definition from_numpy (v : value) : result value :=
  match v with
  | VArray a => Ok (VTensor (Tensor a false))
  | _ => Raise TypeError
  end.

(** [t.size(0)] *)
Definition tensor_size0 (t : tensor) : result Z :=
  seq_getitem (shape (storage t)) 0.

(** [t[i]] *)
Definition tensor_getitem (t : tensor) (i : Z) : result tensor :=
  a <- ndarray_getitem (storage t) i ;;
  Ok (Tensor a (is_cuda t)).

(** [t.cuda()] and [t.cpu()] on a tensor *)
Definition tensor_cuda (t : tensor) : tensor := Tensor (storage t) true.
Definition tensor_cpu (t : tensor) : tensor := Tensor (storage t) false.

(** [Variable(v, **kwargs)]: the wrapper of [torch.autograd], kept as a
    constructor that records what was wrapped and with which options. *)
Definition Variable_ (v : value) (kw : kwargs) : value := VVariable v kw.

(** What torch accepts as the data of a [Variable]: a tensor, a
    [Variable] being one. *)
Definition is_tensor (v : value) : bool :=
  match v with
  | VTensor _ | VVariable _ _ => true
  | _ => false
  end.

(** The call [Variable(v, **kwargs)] as torch evaluates it: data that is
    not a tensor raises [TypeError]. *)
Definition Variable_call (v : value) (kw : kwargs) : result value :=
  if is_tensor v then Ok (Variable_ v kw) else Raise TypeError.

(** [v.cuda()] on a value *)
Fixpoint cuda (v : value) : result value :=
  match v with
  | VTensor t => Ok (VTensor (tensor_cuda t))
  | VVariable d kw => d' <- cuda d ;; Ok (VVariable d' kw)
  | _ => Raise (AttributeError "cuda")
  end.

(** [isinstance(v, (tuple, list))] *)
Definition is_tuple_or_list (v : value) : bool :=
  match v with
  | VTuple _ | VList _ => true
  | _ => false
  end.

(** [len(v)] *)
Fixpoint py_len (v : value) : result Z :=
  match v with
  | VTuple xs | VList xs => Ok (Z.of_nat (length xs))
  | VArray a => ndarray_len a
  | VTensor t => ndarray_len (storage t)
  | VVariable d _ => py_len d
  | VInt _ => Raise TypeError
  end.

(** [v[i]] for an integer [i] *)
Fixpoint py_getitem (v : value) (i : Z) : result value :=
  match v with
  | VTuple xs | VList xs => seq_getitem xs i
  | VArray a => r <- ndarray_getitem a i ;; Ok (VArray r)
  | VTensor t => r <- tensor_getitem t i ;; Ok (VTensor r)
  | VVariable d kw => r <- py_getitem d i ;; Ok (VVariable r kw)
  | VInt _ => Raise TypeError
  end.

(** The elements produced by iterating over [v] (as [zip] and generator
    expressions do); arrays and tensors iterate over their first
    dimension. *)
Fixpoint py_iter (v : value) : result (list value) :=
  match v with
  | VTuple xs | VList xs => Ok xs
  | VArray (Rows rs) => Ok (map VArray rs)
  | VTensor (Tensor (Rows rs) c) => Ok (map (λ r, VTensor (Tensor r c)) rs)
  | VVariable d kw => xs <- py_iter d ;; Ok (map (λ x, VVariable x kw) xs)
  | _ => Raise TypeError
  end.

(** [v(args)]: no value of this universe is callable; calling a tuple,
    as calling any of the others, raises [TypeError]. *)
Definition py_call (v : value) (args : list value) : result value :=
  match v with
  | VTuple _ | VList _ => Raise TypeError
  | VInt _ | VArray _ | VTensor _ | VVariable _ _ => Raise TypeError
  end.

(** ** Transforms *)

(** The transform classes.  A [TransformFromFuncs] object carries its two
    attributes: [transformees], set by [__init__], and [_transforms],
    which does not exist before [initialize] has run.  [Chain] holds its
    sub-transforms in order. *)
Inductive DataTransform : Type :=
| TransformFromFuncs (transformees : list string)
                     (_transforms : option (list (value → value)))
| ToTensor
| Chain (transforms : list DataTransform).

(** [TransformFromFuncs()] *)
Definition TransformFromFuncs_new : DataTransform := TransformFromFuncs [] None.

(** ** The file-backed dataset *)

(** The attributes of an [H5Dataset] object.  [H5_attrs] holds the
    attributes that a subclass or the user adds to the object; they are
    one-argument functions on values.  The attributes the class itself
    defines are the other fields, and none of their names ends in
    [_transform]. *)
Record H5Dataset : Type := {
  H5_fid : gmap string ndarray;
  H5_len : option Z;
  H5_data_keys : list string;
  H5_info : option ndarray;
  H5_transform : DataTransform;
  H5_attrs : gmap string (value → value)
}.

(** [hasattr(dataset, name)] for a name of the form [d + '_transform'] *)
Definition hasattr (dataset : H5Dataset) (name : string) : bool :=
  bool_decide (is_Some (H5_attrs dataset !! name)).

(** One round of the loop of [TransformFromFuncs.initialize], on the pair
    ([_transforms], [transformees]): the lookup is [Some f] when
    [hasattr] holds, and [f] is then what [getattr] returns. *)
Definition initialize_step (dataset : H5Dataset)
    (st : list (value → value) * list string) (d : string)
    : list (value → value) * list string :=
  match H5_attrs dataset !! (d +:+ "_transform") with
  | Some f => (st.1 ++ [f], st.2 ++ [d])
  | None => (st.1 ++ [λ x, x], st.2)
  end.

(** The function that [initialize] binds for the key [d] *)
Definition bound_function (dataset : H5Dataset) (d : string) : value → value :=
  default (λ x, x) (H5_attrs dataset !! (d +:+ "_transform")).

(** The keys for which the dataset has a [_transform] attribute, in the
    order of [data_keys] *)
Definition customized (dataset : H5Dataset) : list string :=
  List.filter (λ d, hasattr dataset (d +:+ "_transform")) (H5_data_keys dataset).

(** [tr.initialize(dataset)]: the transform after the call *)
Fixpoint initialize (dataset : H5Dataset) (tr : DataTransform) : DataTransform :=
  match tr with
  | TransformFromFuncs transformees _ =>
      let st := fold_left (initialize_step dataset) (H5_data_keys dataset)
                          ([], transformees) in
      TransformFromFuncs st.2 (Some st.1)
  | ToTensor => ToTensor
  | Chain transforms => Chain (map (initialize dataset) transforms)
  end.

(** [tr(item)] *)
Fixpoint call (tr : DataTransform) (item : value) : result value :=
  match tr with
  | TransformFromFuncs _ None => Raise (AttributeError "_transforms")
  | TransformFromFuncs _ (Some _transforms) =>
      its <- py_iter item ;;
      Ok (VTuple (zip_with (λ tr it, tr it) _transforms its))
  | ToTensor =>
      its <- py_iter item ;;
      ts <- for_each from_numpy its ;;
      Ok (VTuple ts)
  | Chain transforms =>
      fold_left (λ acc tr, item <- acc ;; call tr item) transforms (Ok item)
  end.

(** [repr(tr)] *)
Fixpoint repr (tr : DataTransform) : string :=
  match tr with
  | TransformFromFuncs transformees _ =>
      "TransformFromFuncs(" +:+ join ", " transformees +:+ ")"
  | ToTensor => "ToTensor"
  | Chain transforms => "Chain[" +:+ join " -> " (map repr transforms) +:+ "]"
  end.

(** [fid[key]] *)
Definition h5_getitem (fid : gmap string ndarray) (key : string) : result ndarray :=
  match fid !! key with
  | Some d => Ok d
  | None => Raise (KeyError key)
  end.

(** The loop of [H5Dataset.__init__] over the keys, on the variable [m]. *)
Fixpoint check_keys (fid : gmap string ndarray) (data_keys : list string)
    (m : option Z) : result (option Z) :=
  match data_keys with
  | [] => Ok m
  | key :: rest =>
      _ <- assert (bool_decide (is_Some (fid !! key)))
                  ("Could not find " +:+ key +:+ " in file") ;;
      match m with
      | None =>
          d <- h5_getitem fid key ;;
          n <- ndarray_len d ;;
          check_keys fid rest (Some n)
      | Some m' =>
          d <- h5_getitem fid key ;;
          n <- ndarray_len d ;;
          _ <- assert (m' =? n) "Length of datasets do not match" ;;
          check_keys fid rest m
      end
  end.

(** [H5Dataset(filename, *data_keys, info_name=..., transform=...)], where
    [fid] is the content of the opened file and [attrs] the attributes a
    subclass adds. *)
Definition H5Dataset_init (fid : gmap string ndarray) (data_keys : list string)
    (info_name : option string) (transform : option DataTransform)
    (attrs : gmap string (value → value)) : result H5Dataset :=
  m <- check_keys fid data_keys None ;;
  info <- match info_name with
          | Some name => d <- h5_getitem fid name ;; Ok (Some d)
          | None => Ok None
          end ;;
  let tr := match transform with
            | None => Chain [TransformFromFuncs_new; ToTensor]
            | Some tr => tr
            end in
  let self := {| H5_fid := fid; H5_len := m; H5_data_keys := data_keys;
                 H5_info := info; H5_transform := tr; H5_attrs := attrs |} in
  Ok {| H5_fid := fid; H5_len := m; H5_data_keys := data_keys;
        H5_info := info; H5_transform := initialize self tr; H5_attrs := attrs |}.

(** [dataset[item]] *)
Definition H5Dataset_getitem (self : H5Dataset) (item : Z) : result value :=
  raw <- for_each (λ d, a <- h5_getitem (H5_fid self) d ;;
                        r <- ndarray_getitem a item ;;
                        Ok (VArray r))
                  (H5_data_keys self) ;;
  call (H5_transform self) (VTuple raw).

(** [len(dataset)]: [_len] is [None] when there is no key, and [len]
    does not accept it. *)
Definition H5Dataset_len (self : H5Dataset) : result Z :=
  match H5_len self with
  | Some m => Ok m
  | None => Raise TypeError
  end.

(** ** The in-memory datasets *)

(** The loop [for d in data: assert len(d) == len(data[0]), msg] of the
    three in-memory constructors, where [len] is [d.shape[0]] or
    [len(d)]. *)
Fixpoint assert_same_length {A} (len : A → result Z) (data all : list A)
    : result unit :=
  match data with
  | [] => Ok tt
  | d :: rest =>
      n <- len d ;;
      first <- seq_getitem all 0 ;;
      n0 <- len first ;;
      _ <- assert (n =? n0) "datasets must have same first dimension" ;;
      assert_same_length len rest all
  end.

(** [d.shape[0]] *)
Definition shape0 (d : ndarray) : result Z := seq_getitem (shape d) 0.

Definition check_first_dim (data : list ndarray) : result unit :=
  assert_same_length shape0 data data.

Record MultiTensorDataset : Type := {
  MT_data : list value;
  MT_transform : value → result value
}.

(** [MultiTensorDataset( *data, transform=...)] *)
Definition MultiTensorDataset_init (data : list ndarray)
    (transform : option (value → result value)) : result MultiTensorDataset :=
  _ <- check_first_dim data ;;
  tensors <- for_each (λ d, from_numpy (VArray (astype_float32 d))) data ;;
  let transform := match transform with
                   | None => λ x, Ok x
                   | Some tr => tr
                   end in
  Ok {| MT_data := tensors; MT_transform := transform |}.

(** [dataset[index]] *)
Definition MultiTensorDataset_getitem (self : MultiTensorDataset) (index : Z)
    : result value :=
  ret <- for_each (λ d, py_getitem d index) (MT_data self) ;;
  MT_transform self (VTuple ret).

(** [v.size(0)] *)
Definition size0 (v : value) : result Z :=
  match v with
  | VTensor t => tensor_size0 t
  | _ => Raise (AttributeError "size")
  end.

(** [len(dataset)] *)
Definition MultiTensorDataset_len (self : MultiTensorDataset) : result Z :=
  first <- seq_getitem (MT_data self) 0 ;;
  size0 first.

(** Methods that may assign attributes of [self] return the outcome of
    the call together with the object after the call. *)
Definition method (S A : Type) : Type := S → result A * S.

(** [dataset.as_variables( **kwargs)] *)
Definition as_variables (kw : kwargs) : method MultiTensorDataset value :=
  λ self, (Ok (VTuple (map (λ v, Variable_ v kw) (MT_data self))), self).

(** [v.cpu()] *)
Fixpoint cpu (v : value) : result value :=
  match v with
  | VTensor t => Ok (VTensor (tensor_cpu t))
  | VVariable d kw => d' <- cpu d ;; Ok (VVariable d' kw)
  | _ => Raise (AttributeError "cpu")
  end.

(** [dataset.cuda_()] and [dataset.cpu_()] *)
Definition cuda_ : method MultiTensorDataset unit :=
  λ self,
    match for_each cuda (MT_data self) with
    | Ok data => (Ok tt, {| MT_data := data; MT_transform := MT_transform self |})
    | Raise e => (Raise e, self)
    end.

Definition cpu_ : method MultiTensorDataset unit :=
  λ self,
    match for_each cpu (MT_data self) with
    | Ok data => (Ok tt, {| MT_data := data; MT_transform := MT_transform self |})
    | Raise e => (Raise e, self)
    end.

Record NumpyDataset : Type := { NP_data : list ndarray }.

(** [NumpyDataset( *data)] *)
Definition NumpyDataset_init (data : list ndarray) : result NumpyDataset :=
  _ <- check_first_dim data ;;
  Ok {| NP_data := data |}.

(** [dataset[index]] *)
Definition NumpyDataset_getitem (self : NumpyDataset) (index : Z) : result value :=
  ret <- for_each (λ d, r <- ndarray_getitem d index ;; Ok (VArray r))
                  (NP_data self) ;;
  Ok (VTuple ret).

(** [len(dataset)]: [self.data[0].shape(0)] calls the shape tuple *)
Definition NumpyDataset_len (self : NumpyDataset) : result value :=
  first <- seq_getitem (NP_data self) 0 ;;
  py_call (VTuple (map VInt (shape first))) [VInt 0].

(** ** The list dataset *)

Definition check_len (data : list value) : result unit :=
  assert_same_length py_len data data.

Record ListDataset : Type := {
  LD_transform : option (value → result value);
  LD_data : list value
}.

(** [ListDataset( *data, transform=...)] *)
Definition ListDataset_init (data : list value)
    (transform : option (value → result value)) : result ListDataset :=
  _ <- check_len data ;;
  Ok {| LD_transform := transform; LD_data := data |}.

(** [dataset[index]] *)
Definition ListDataset_getitem (self : ListDataset) (index : Z) : result value :=
  match LD_transform self with
  | Some transform =>
      ret <- for_each (λ d, py_getitem d index) (LD_data self) ;;
      transform (VTuple ret)
  | None =>
      ret <- for_each (λ d, py_getitem d index) (LD_data self) ;;
      Ok (VTuple ret)
  end.

(** [len(dataset)] *)
Definition ListDataset_len (self : ListDataset) : result Z :=
  Ok (Z.of_nat (length (LD_data self))).

(** ** The conversion helper *)

(** The filter that the first round of the loop infers from [elem] *)
Definition infer_filter (elem : value) : result (list bool) :=
  if negb (is_tuple_or_list elem) then Ok [true]
  else n <- py_len elem ;; Ok (replicate (Z.to_nat n) true).

(** One round of the loop of [to_variable]: the tuple it yields and the
    value of the variable [filter] after the round. *)
Definition to_variable_round (cuda_flag : bool) (kw : kwargs)
    (filter : option (list bool)) (elem : value)
    : result (value * option (list bool)) :=
  filter <- match filter with
            | None => infer_filter elem
            | Some f => Ok f
            end ;;
  es <- py_iter elem ;;
  if cuda_flag then
    out <- for_each (λ fe : bool * value,
                       if fe.1 then e' <- cuda fe.2 ;; Variable_call e' kw
                       else Ok fe.2)
                    (zip filter es) ;;
    Ok (VTuple out, Some filter)
  else
    out <- for_each (λ fe : bool * value,
                       if fe.1 then Variable_call fe.2 kw else Ok fe.2)
                    (zip filter es) ;;
    Ok (VTuple out, Some filter).

(** [to_variable(iter, cuda, filter, **kwargs)] consumed to its end: the
    values the generator yields, in order, and the exception that ended
    it, if one did. *)
Fixpoint to_variable (iter : list value) (cuda_flag : bool)
    (filter : option (list bool)) (kw : kwargs) : list value * option exn :=
  match iter with
  | [] => ([], None)
  | elem :: rest =>
      match to_variable_round cuda_flag kw filter elem with
      | Ok (out, filter') =>
          let r := to_variable rest cuda_flag filter' kw in
          (out :: r.1, r.2)
      | Raise e => ([], Some e)
      end
  end.

(** ** Iterating over the file-backed dataset *)

(** [range(n)] *)
Definition range (n : Z) : list Z := map Z.of_nat (seq 0 (Z.to_nat n)).

(** A generator that yields the results of [calls] one after the other
    and ends with the first exception: what it yields, and the exception
    that ended it, if one did. *)
Fixpoint yield_from (calls : list (result value)) : list value * option exn :=
  match calls with
  | [] => ([], None)
  | Ok v :: rest => let r := yield_from rest in (v :: r.1, r.2)
  | Raise e :: _ => ([], Some e)
  end.

(** [iter(dataset)] consumed to its end:
    [yield from map(self.__getitem__, range(len(self)))] *)
Definition H5Dataset_iter (self : H5Dataset) : list value * option exn :=
  match H5Dataset_len self with
  | Ok m => yield_from (map (H5Dataset_getitem self) (range m))
  | Raise e => ([], Some e)
  end.

End Dataset.

(** ** Concrete arrays and datasets

    Arrays whose elements are integers tagged with their dtype.  The
    cast to [float32] changes the tag; it keeps the number, as numpy
    does for the integers that [float32] represents exactly. *)

Arguments Item {scalar} x.
Arguments Rows {scalar} rs.
Arguments VInt {scalar} n.
Arguments VArray {scalar} a.
Arguments VTensor {scalar} t.
Arguments VVariable {scalar} data kw.
Arguments VTuple {scalar} items.
Arguments VList {scalar} items.
Arguments Tensor {scalar} storage is_cuda.
Arguments ToTensor {scalar}.
Arguments TransformFromFuncs {scalar} transformees _transforms.
Arguments Chain {scalar} transforms.

Inductive dtype : Type := int64 | float32.

Definition number : Type := dtype * Z.

Definition number_to_float32 (x : number) : number := (float32, x.2).

(** One-dimensional arrays of dtype [int64] and [float32] *)
Definition ints (xs : list Z) : ndarray (scalar := number) :=
  Rows (map (λ z, Item (int64, z)) xs).

Definition floats (xs : list Z) : ndarray (scalar := number) :=
  Rows (map (λ z, Item (float32, z)) xs).

(** A file whose two datasets have different lengths, and one whose
    datasets agree. *)
Definition mismatched_file : gmap string (ndarray (scalar := number)) :=
  {[ "images" := ints [10]; "responses" := ints [20; 21] ]}.

Definition matched_file : gmap string (ndarray (scalar := number)) :=
  {[ "images" := ints [10; 11]; "responses" := ints [20; 21] ]}.

(** A subclass that defines [images_transform]: it puts its argument
    into a list. *)
Definition images_attrs : gmap string (value (scalar := number) → value) :=
  {[ "images_transform" := λ v, VList [v] ]}.

(** The dataset over [matched_file] of that subclass, built with
    [transform=TransformFromFuncs()] *)
Definition images_dataset : H5Dataset (scalar := number) :=
  {| H5_fid := matched_file; H5_len := Some 2;
     H5_data_keys := ["images"; "responses"]; H5_info := None;
     H5_transform := TransformFromFuncs ["images"] (Some [λ v, VList [v]; λ x, x]);
     H5_attrs := images_attrs |}.

(** The two items of [images_dataset] *)
Definition images_items : list (value (scalar := number)) :=
  [VTuple [VList [VArray (Item (int64, 10))]; VArray (Item (int64, 20))];
   VTuple [VList [VArray (Item (int64, 11))]; VArray (Item (int64, 21))]].

(** The dataset over [matched_file] of the same subclass, built with the
    default transform: [images_transform] hands a list to [ToTensor]. *)
Definition listing_dataset : H5Dataset (scalar := number) :=
  {| H5_fid := matched_file; H5_len := Some 2;
     H5_data_keys := ["images"; "responses"]; H5_info := None;
     H5_transform :=
       Chain [TransformFromFuncs ["images"] (Some [λ v, VList [v]; λ x, x]); ToTensor];
     H5_attrs := images_attrs |}.

(** The dataset over [matched_file] built without any key *)
Definition no_key_dataset : H5Dataset (scalar := number) :=
  {| H5_fid := matched_file; H5_len := None;
     H5_data_keys := []; H5_info := None;
     H5_transform := Chain [TransformFromFuncs [] (Some []); ToTensor];
     H5_attrs := ∅ |}.

(** Two lists of length three and two lists of length one *)
Definition long_lists : list (list (value (scalar := number))) :=
  [[VInt 1; VInt 2; VInt 3]; [VInt 9; VInt 8; VInt 7]].

Definition short_lists : list (list (value (scalar := number))) :=
  [[VInt 1]; [VInt 9]].

(** A dataset with one key and no [_transform] attribute *)
Definition plain_dataset : H5Dataset (scalar := number) :=
  {| H5_fid := matched_file; H5_len := Some 2;
     H5_data_keys := ["images"]; H5_info := None;
     H5_transform := Chain [TransformFromFuncs [] (Some [λ x, x]); ToTensor];
     H5_attrs := ∅ |}.

(** The file with one two-dimensional dataset, and the dataset over it
    built with the default transform *)
Definition matrix_file : gmap string (ndarray (scalar := number)) :=
  {[ "images" := Rows [ints [10; 11]; ints [12; 13]] ]}.

Definition matrix_dataset : H5Dataset (scalar := number) :=
  {| H5_fid := matrix_file; H5_len := Some 2;
     H5_data_keys := ["images"]; H5_info := None;
     H5_transform := Chain [TransformFromFuncs [] (Some [λ x, x]); ToTensor];
     H5_attrs := ∅ |}.

(** The CPU tensor with the one entry [z] *)
Definition one_entry_tensor (z : Z) : value (scalar := number) :=
  VTensor (Tensor (ints [z]) false).

(** Items with one and with two arrays *)
Definition one_entry : list (value (scalar := number)) := [VArray (ints [1; 2])].

Definition two_entries : list (value (scalar := number)) :=
  [VArray (ints [1; 2]); VArray (ints [3; 4])].

(** [MultiTensorDataset(ints [1, 2], ints [3, 4])] *)
Definition two_fields : MultiTensorDataset (scalar := number) :=
  {| MT_data := [VTensor (Tensor (floats [1; 2]) false);
                 VTensor (Tensor (floats [3; 4]) false)];
     MT_transform := λ x, Ok x |}.

(** * Properties *)

Section Properties.

Context {scalar : Type} (to_float32 : scalar → scalar).

Local Abbreviation ndarray := (@ndarray scalar).
Local Abbreviation value := (@value scalar).
Local Abbreviation DataTransform := (@DataTransform scalar).
Local Abbreviation H5Dataset := (@H5Dataset scalar).
Local Abbreviation MultiTensorDataset := (@MultiTensorDataset scalar).
Local Abbreviation NumpyDataset := (@NumpyDataset scalar).
Local Abbreviation ListDataset := (@ListDataset scalar).

(** ** Strings and sequences *)

Lemma prefix_app (k s : string) : String.prefix k (k +:+ s) = true.
Proof.
  induction k as [|c k IH]; simpl.
  - by destruct s.
  - destruct (Ascii.ascii_dec c c); [exact IH | congruence].
Qed.

Lemma contains_app (pre k post : string) :
  contains k (pre +:+ k +:+ post) = true.
Proof.
  induction pre as [|c pre IH].
  - change ("" +:+ k +:+ post) with (k +:+ post).
    pose proof (prefix_app k post) as H.
    destruct (k +:+ post); cbn [contains]; by rewrite H.
  - change (String c pre +:+ k +:+ post) with (String c (pre +:+ k +:+ post)).
    cbn [contains]. rewrite IH. apply orb_true_r.
Qed.

Lemma prefix_inv (k s : string) :
  String.prefix k s = true → ∃ post, s = k +:+ post.
Proof.
  revert s. induction k as [|c k IH]; intros s H.
  - by exists s.
  - destruct s as [|c' s]; simpl in H; [done|].
    destruct (Ascii.ascii_dec c c') as [->|]; [|done].
    destruct (IH _ H) as [post ->]. by exists post.
Qed.

(** [contains] decides the occurrence of [k] inside [s]. *)
Lemma contains_spec (k s : string) :
  contains k s = true ↔ ∃ pre post, s = pre +:+ k +:+ post.
Proof.
  split.
  - induction s as [|c s IH]; cbn [contains]; intros H.
    + rewrite orb_false_r in H. destruct (prefix_inv _ _ H) as [post ->].
      by exists "", post.
    + apply orb_true_iff in H as [H|H].
      * destruct (prefix_inv _ _ H) as [post ->]. by exists "", post.
      * destruct (IH H) as (pre & post & ->). by exists (String c pre), post.
  - intros (pre & post & ->). apply contains_app.
Qed.

Lemma seq_getitem_0 {A} (x : A) (xs : list A) : seq_getitem (x :: xs) 0 = Ok x.
Proof. unfold seq_getitem. simpl. done. Qed.

Lemma seq_getitem_in_range {A} (xs : list A) (i : Z) :
  0 <= i < Z.of_nat (length xs) →
  ∃ x, xs !! Z.to_nat i = Some x ∧ seq_getitem xs i = Ok x.
Proof.
  intros Hi. unfold seq_getitem.
  destruct (Z.ltb_spec i 0); [lia|].
  destruct (Z.leb_spec 0 i); [|lia].
  destruct (Z.ltb_spec i (Z.of_nat (length xs))); [|lia]. simpl.
  destruct (lookup_lt_is_Some_2 xs (Z.to_nat i)) as [x Hx]; [lia|].
  exists x. by rewrite Hx.
Qed.

Lemma seq_getitem_length {A} (xs : list A) :
  seq_getitem xs (Z.of_nat (length xs)) = Raise IndexError.
Proof.
  unfold seq_getitem.
  destruct (Z.ltb_spec (Z.of_nat (length xs)) 0); [lia|].
  destruct (Z.ltb_spec (Z.of_nat (length xs)) (Z.of_nat (length xs))); [lia|].
  by rewrite andb_false_r.
Qed.

(** ** Construction with fields of different lengths *)

Lemma assert_same_length_differs {A} (len : A → result Z) (all : list A)
    (first : A) (n0 : Z) (data : list A) :
  seq_getitem all 0 = Ok first →
  len first = Ok n0 →
  (∀ d, d ∈ data → ∃ n, len d = Ok n) →
  (∃ d, d ∈ data ∧ len d ≠ Ok n0) →
  assert_same_length len data all =
    Raise (AssertionError "datasets must have same first dimension").
Proof.
  intros Hfirst Hn0. induction data as [|d data IH]; intros Hlen (x & Hx & Hne).
  - by apply elem_of_nil in Hx.
  - simpl. destruct (Hlen d) as [n Hn]; [left|].
    rewrite Hn, Hfirst. simpl. rewrite Hn0. simpl.
    destruct (Z.eqb_spec n n0) as [->|Hnn]; simpl; [|done].
    apply IH.
    + intros d' Hd'. apply Hlen. by right.
    + apply elem_of_cons in Hx as [->|Hx]; [congruence|]. by exists x.
Qed.

Lemma assert_same_length_mismatch {A} (len : A → result Z) (data : list A) :
  (∀ d, d ∈ data → ∃ n, len d = Ok n) →
  (∃ d1 d2, d1 ∈ data ∧ d2 ∈ data ∧ len d1 ≠ len d2) →
  assert_same_length len data data =
    Raise (AssertionError "datasets must have same first dimension").
Proof.
  intros Hlen (d1 & d2 & H1 & H2 & Hne).
  destruct data as [|first data]; [by apply elem_of_nil in H1|].
  destruct (Hlen first) as [n0 Hn0]; [left|].
  apply assert_same_length_differs with first n0; auto using seq_getitem_0.
  destruct (Hlen d1 H1) as [n1 Hn1].
  destruct (decide (n1 = n0)) as [->|].
  - exists d2. split; [done|]. congruence.
  - exists d1. split; [done|]. congruence.
Qed.

Lemma check_keys_differs (fid : gmap string ndarray) (m : Z) (keys : list string) :
  (∀ k, k ∈ keys → ∃ d n, fid !! k = Some d ∧ ndarray_len d = Ok n) →
  (∃ k d, k ∈ keys ∧ fid !! k = Some d ∧ ndarray_len d ≠ Ok m) →
  check_keys fid keys (Some m) =
    Raise (AssertionError "Length of datasets do not match").
Proof.
  induction keys as [|key keys IH]; intros Hlen (k & d & Hk & Hd & Hne).
  - by apply elem_of_nil in Hk.
  - simpl. destruct (Hlen key) as (d0 & n & Hd0 & Hn); [left|].
    unfold h5_getitem. rewrite Hd0.
    rewrite bool_decide_eq_true_2 by eauto. simpl. rewrite Hn. simpl.
    destruct (Z.eqb_spec m n) as [->|Hmn]; simpl; [|done].
    apply IH.
    + intros k' Hk'. apply Hlen. by right.
    + apply elem_of_cons in Hk as [->|Hk]; [congruence|]. by exists k, d.
Qed.

Lemma check_keys_mismatch (fid : gmap string ndarray) (keys : list string) :
  (∀ k, k ∈ keys → ∃ d n, fid !! k = Some d ∧ ndarray_len d = Ok n) →
  (∃ k1 k2 d1 d2, k1 ∈ keys ∧ k2 ∈ keys ∧ fid !! k1 = Some d1 ∧
                  fid !! k2 = Some d2 ∧ ndarray_len d1 ≠ ndarray_len d2) →
  check_keys fid keys None =
    Raise (AssertionError "Length of datasets do not match").
Proof.
  intros Hlen (k1 & k2 & d1 & d2 & H1 & H2 & Hd1 & Hd2 & Hne).
  destruct keys as [|key keys]; [by apply elem_of_nil in H1|].
  destruct (Hlen key) as (d0 & m & Hd0 & Hm); [left|].
  assert (∃ k d, k ∈ keys ∧ fid !! k = Some d ∧ ndarray_len d ≠ Ok m)
    as Hdiff.
  { destruct (Hlen k1 H1) as (d1' & n1 & Hd1' & Hn1).
    assert (d1' = d1) as -> by congruence.
    destruct (decide (n1 = m)) as [->|Hn].
    - exists k2, d2. split_and!; [|done|congruence].
      apply elem_of_cons in H2 as [->|]; [|done]. congruence.
    - exists k1, d1. split_and!; [|done|congruence].
      apply elem_of_cons in H1 as [->|]; [|done]. congruence. }
  simpl. unfold h5_getitem. rewrite Hd0.
  rewrite bool_decide_eq_true_2 by eauto. simpl. rewrite Hm. simpl.
  apply check_keys_differs; [|done].
  intros k Hk. apply Hlen. by right.
Qed.

Lemma check_keys_agree (fid : gmap string ndarray) (n : Z) (keys : list string) :
  (∀ k, k ∈ keys → ∃ d, fid !! k = Some d ∧ ndarray_len d = Ok n) →
  ∀ rest, check_keys fid (keys ++ rest) (Some n) = check_keys fid rest (Some n).
Proof.
  induction keys as [|key keys IH]; intros Hlen rest; [done|].
  simpl. destruct (Hlen key) as (d & Hd & Hn); [left|].
  unfold h5_getitem. rewrite Hd.
  rewrite bool_decide_eq_true_2 by eauto. simpl. rewrite Hn. simpl.
  rewrite Z.eqb_refl. simpl. apply IH. intros k Hk. apply Hlen. by right.
Qed.

Lemma check_keys_missing (fid : gmap string ndarray) (n : Z)
    (pre : list string) (key : string) (post : list string) :
  (∀ k, k ∈ pre → ∃ d, fid !! k = Some d ∧ ndarray_len d = Ok n) →
  fid !! key = None →
  check_keys fid (pre ++ key :: post) None =
    Raise (AssertionError ("Could not find " +:+ key +:+ " in file")).
Proof.
  intros Hlen Hkey.
  assert (∀ m, check_keys fid (key :: post) m =
    Raise (AssertionError ("Could not find " +:+ key +:+ " in file"))) as Hhere.
  { intros m. simpl. rewrite bool_decide_eq_false_2; [done|].
    rewrite Hkey. by intros [? ?]. }
  destruct pre as [|k0 pre]; [apply Hhere|].
  simpl. destruct (Hlen k0) as (d & Hd & Hn); [left|].
  unfold h5_getitem. rewrite Hd.
  rewrite bool_decide_eq_true_2 by eauto. simpl. rewrite Hn. simpl.
  rewrite check_keys_agree; [apply Hhere|].
  intros k Hk. apply Hlen. by right.
Qed.

(** ** Fetching an item *)

Lemma seq_getitem_valid {A} (xs : list A) (i : Z) :
  - Z.of_nat (length xs) <= i < Z.of_nat (length xs) →
  ∃ x, seq_getitem xs i = Ok x.
Proof.
  intros Hi. unfold seq_getitem.
  destruct (Z.ltb_spec i 0).
  - destruct (seq_getitem_in_range xs (i + Z.of_nat (length xs))) as (x & _ & Hx);
      [lia|].
    unfold seq_getitem in Hx.
    destruct (Z.ltb_spec (i + Z.of_nat (length xs)) 0); [lia|]. eauto.
  - destruct (seq_getitem_in_range xs i) as (x & _ & Hx); [lia|].
    unfold seq_getitem in Hx. destruct (Z.ltb_spec i 0); [lia|]. eauto.
Qed.

Lemma for_each_ok {A B} (f : A → result B) (xs : list A) :
  (∀ x, x ∈ xs → ∃ y, f x = Ok y) →
  ∃ ys, for_each f xs = Ok ys ∧ length ys = length xs ∧
        ∀ i x, xs !! i = Some x → ∃ y, f x = Ok y ∧ ys !! i = Some y.
Proof.
  induction xs as [|x xs IH]; intros Hall.
  - exists []. by split_and!.
  - destruct (Hall x) as [y Hy]; [left|].
    destruct IH as (ys & Hys & Hlen & Hnth).
    { intros x' Hx'. apply Hall. by right. }
    exists (y :: ys). simpl. rewrite Hy, Hys. simpl. split_and!; [done|lia|].
    intros [|i] x'; simpl; [|by apply Hnth].
    intros [= <-]. eauto.
Qed.

(** What [check_keys] has established when it returns. *)
Lemma check_keys_ok (fid : gmap string ndarray) (keys : list string)
    (m0 m : option Z) :
  check_keys fid keys m0 = Ok m →
  (keys = [] ∧ m = m0) ∨
  (∃ n, m = Some n ∧ (∀ n0, m0 = Some n0 → n0 = n) ∧
        ∀ k, k ∈ keys → ∃ rs, fid !! k = Some (Rows rs) ∧ Z.of_nat (length rs) = n).
Proof.
  revert m0. induction keys as [|key keys IH]; intros m0 H; [left; by inversion H|].
  right. simpl in H. unfold h5_getitem in H.
  destruct (fid !! key) as [d|] eqn:Hd; [|by rewrite bool_decide_eq_false_2 in H by (by intros [? ?])].
  rewrite bool_decide_eq_true_2 in H by eauto. simpl in H.
  destruct d as [x|rs]; [by destruct m0|].
  set (n := Z.of_nat (length rs)) in *.
  assert (∃ m1, check_keys fid keys (Some m1) = Ok m ∧ m1 = n ∧
                ∀ n0, m0 = Some n0 → n0 = n) as (m1 & Hrest & -> & Hm0).
  { destruct m0 as [m'|]; simpl in H.
    - fold n in H. destruct (Z.eqb_spec m' n) as [->|]; [|done].
      exists n. split_and!; [done..|]. by intros ? [= <-].
    - exists n. split_and!; done. }
  destruct (IH _ Hrest) as [[-> ->]|(n' & -> & Hn' & Hkeys)].
  - exists n. split_and!; [done..|].
    intros k Hk. apply list_elem_of_singleton in Hk as ->. eauto.
  - specialize (Hn' n eq_refl) as <-. exists n. split_and!; [done..|].
    intros k Hk. apply elem_of_cons in Hk as [->|Hk]; [eauto|by apply Hkeys].
Qed.

Lemma initialize_loop (dataset : H5Dataset) (keys : list string)
    (st : list (value → value) * list string) :
  fold_left (initialize_step dataset) keys st =
    (st.1 ++ map (bound_function dataset) keys,
     st.2 ++ List.filter (λ d, hasattr dataset (d +:+ "_transform")) keys).
Proof.
  revert st. induction keys as [|d keys IH]; intros [trs tees]; simpl.
  - by rewrite !app_nil_r.
  - rewrite IH. unfold initialize_step, bound_function, hasattr. simpl.
    destruct (H5_attrs dataset !! (d +:+ "_transform")) as [f|] eqn:Hf; simpl.
    + by rewrite <- !app_assoc.
    + by rewrite <- !app_assoc.
Qed.

Lemma initialize_TransformFromFuncs (dataset : H5Dataset)
    (transformees : list string) (old : option (list (value → value))) :
  initialize dataset (TransformFromFuncs transformees old) =
    TransformFromFuncs (transformees ++ customized dataset)
                       (Some (map (bound_function dataset) (H5_data_keys dataset))).
Proof. simpl. by rewrite initialize_loop. Qed.

(** C2.  An [H5Dataset] built with [transform=TransformFromFuncs()] returns,
    at every index that is valid for its fields, a tuple with one entry
    per data key; the entry of a key whose [_transform] attribute is the
    function [f] is [f] applied to the raw slice of that field, and the
    entry of a key without such an attribute is the raw slice itself. *)
Theorem transform_from_funcs_item (fid : gmap string ndarray)
    (keys : list string) (info_name : option string)
    (attrs : gmap string (value → value)) (self : H5Dataset) (item : Z) :
  H5Dataset_init fid keys info_name (Some TransformFromFuncs_new) attrs = Ok self →
  (∀ m, H5_len self = Some m → - m <= item < m) →
  ∃ items,
    H5Dataset_getitem self item = Ok (VTuple items) ∧
    length items = length keys ∧
    ∀ pos key, keys !! pos = Some key →
      ∃ d raw, fid !! key = Some d ∧ ndarray_getitem d item = Ok raw ∧
        (∀ f, attrs !! (key +:+ "_transform") = Some f →
              items !! pos = Some (f (VArray raw))) ∧
        (attrs !! (key +:+ "_transform") = None →
              items !! pos = Some (VArray raw)).
Proof.
  unfold H5Dataset_init, TransformFromFuncs_new. intros Hinit Hitem.
  destruct (check_keys fid keys None) as [m|] eqn:Hkeys;
    cbn [bind] in Hinit; [|done].
  destruct (match info_name with Some _ => _ | None => _ end) as [info|];
    cbn [bind] in Hinit; [|done].
  rewrite initialize_TransformFromFuncs in Hinit. simpl in Hinit.
  injection Hinit as <-. simpl in Hitem.
  unfold H5Dataset_getitem. simpl.
  destruct (for_each_ok
    (λ d, a <- h5_getitem fid d ;; r <- ndarray_getitem a item ;; Ok (VArray r))
    keys) as (raws & -> & Hlen & Hraws).
  { intros k Hk. destruct (check_keys_ok _ _ _ _ Hkeys) as [[-> _]|(n & -> & _ & Hall)];
      [by apply elem_of_nil in Hk|].
    destruct (Hall k Hk) as (rs & Hrs & Hn).
    destruct (seq_getitem_valid rs item) as [r Hr]; [specialize (Hitem n eq_refl); lia|].
    exists (VArray r). unfold h5_getitem. rewrite Hrs. simpl. by rewrite Hr. }
  simpl. eexists. split_and!; [done| |].
  - rewrite length_zip_with, length_map. lia.
  - intros pos key Hpos. destruct (Hraws pos key Hpos) as (y & Hy & Hpos').
    unfold h5_getitem in Hy. destruct (fid !! key) as [d|] eqn:Hd; simpl in Hy; [|done].
    destruct (ndarray_getitem d item) as [raw|] eqn:Hraw; simpl in Hy; [|done].
    injection Hy as <-. exists d, raw. split_and!; [done..| |].
    + intros f Hf. rewrite lookup_zip_with, list_lookup_fmap, Hpos, Hpos'.
      simpl. unfold bound_function. simpl. by rewrite Hf.
    + intros Hf. rewrite lookup_zip_with, list_lookup_fmap, Hpos, Hpos'.
      simpl. unfold bound_function. simpl. by rewrite Hf.
Qed.

(** ** The default chain and [ToTensor] *)

Lemma zip_with_identities (dataset : H5Dataset) (keys : list string)
    (item : list value) :
  (∀ d, d ∈ keys → H5_attrs dataset !! (d +:+ "_transform") = None) →
  zip_with (λ (tr : value → value) it, tr it) (map (bound_function dataset) keys) item =
    take (length keys) item.
Proof.
  revert item. induction keys as [|d keys IH]; intros item Hnone; [done|].
  destruct item as [|it item]; [done|]. simpl. f_equal.
  - unfold bound_function. rewrite Hnone; [done|left].
  - apply IH. intros d' Hd'. apply Hnone. by right.
Qed.

(** On a dataset without [_transform] attributes the default chain
    converts the first [len(data_keys)] entries of the item and drops
    the others, because [zip] stops at the shorter sequence. *)
Lemma chain_truncates (dataset : H5Dataset) (item : list value) :
  (∀ d, d ∈ H5_data_keys dataset →
        H5_attrs dataset !! (d +:+ "_transform") = None) →
  call (initialize dataset (Chain [TransformFromFuncs_new; ToTensor])) (VTuple item) =
    call (initialize dataset ToTensor)
         (VTuple (take (length (H5_data_keys dataset)) item)).
Proof.
  intros Hnone. unfold TransformFromFuncs_new.
  cbn [initialize map]. rewrite initialize_loop.
  cbn [call fold_left fst snd py_iter bind app].
  by rewrite zip_with_identities.
Qed.

(** C3 (as amended).  On a dataset none of whose data keys has a
    [_transform] attribute, and for every input tuple with at most as
    many entries as the dataset has data keys, the initialized chain of
    [TransformFromFuncs] and [ToTensor] returns what the initialized
    [ToTensor] returns alone, exceptions included. *)
Theorem chain_equals_to_tensor (dataset : H5Dataset) (item : list value) :
  (∀ d, d ∈ H5_data_keys dataset →
        H5_attrs dataset !! (d +:+ "_transform") = None) →
  (length item ≤ length (H5_data_keys dataset))%nat →
  call (initialize dataset (Chain [TransformFromFuncs_new; ToTensor])) (VTuple item) =
    call (initialize dataset ToTensor) (VTuple item).
Proof.
  intros Hnone Hlen. rewrite chain_truncates by done.
  by rewrite take_ge.
Qed.

(** ** Items of the coerced dataset *)

Lemma seq_getitem_map {A B} (f : A → B) (xs : list A) (i : Z) :
  seq_getitem (map f xs) i = (x <- seq_getitem xs i ;; Ok (f x)).
Proof.
  unfold seq_getitem. rewrite length_map.
  destruct (_ && _); [|done].
  rewrite list_lookup_fmap. by destruct (xs !! _).
Qed.

Lemma shape0_Rows (d : ndarray) (n : Z) :
  shape0 d = Ok n → ∃ rs, d = Rows rs ∧ n = Z.of_nat (length rs).
Proof.
  destruct d as [x|rs]; [done|].
  unfold shape0. cbn [shape]. rewrite seq_getitem_0. intros [= <-]. eauto.
Qed.

(** What the loop of the in-memory constructors has established when it
    ends without an exception. *)
Lemma assert_same_length_ok {A} (len : A → result Z) (data all : list A) :
  assert_same_length len data all = Ok tt →
  ∀ d, d ∈ data →
    ∃ first n, seq_getitem all 0 = Ok first ∧ len first = Ok n ∧ len d = Ok n.
Proof.
  induction data as [|d0 data IH]; intros H d Hd; [by apply elem_of_nil in Hd|].
  simpl in H.
  destruct (len d0) as [n|] eqn:Hn; cbn [bind] in H; [|done].
  destruct (seq_getitem all 0) as [first|] eqn:Hfirst; cbn [bind] in H; [|done].
  destruct (len first) as [n0|] eqn:Hn0; cbn [bind] in H; [|done].
  destruct (Z.eqb_spec n n0) as [->|]; cbn [bind assert] in H; [|done].
  apply elem_of_cons in Hd as [->|Hd]; [by exists first, n0|by apply IH].
Qed.

Lemma coerce_all (data : list ndarray) :
  for_each (λ d, from_numpy (VArray (astype_float32 to_float32 d))) data =
    Ok (map (λ d, VTensor (Tensor (astype_float32 to_float32 d) false)) data).
Proof. induction data as [|d data IH]; [done|]. cbn [for_each]. by rewrite IH. Qed.

Lemma MultiTensorDataset_init_ok (data : list ndarray)
    (transform : option (value → result value)) (self : MultiTensorDataset) :
  MultiTensorDataset_init to_float32 data transform = Ok self →
  MT_data self = map (λ d, VTensor (Tensor (astype_float32 to_float32 d) false)) data ∧
  MT_transform self = default (λ x, Ok x) transform ∧
  ∀ d, d ∈ data →
    ∃ first n, seq_getitem data 0 = Ok first ∧ shape0 first = Ok n ∧ shape0 d = Ok n.
Proof.
  unfold MultiTensorDataset_init, check_first_dim. intros H.
  destruct (assert_same_length shape0 data data) as [[]|] eqn:Hchk;
    cbn [bind] in H; [|done].
  rewrite coerce_all in H. cbn [bind] in H. injection H as <-.
  split_and!; [done|by destruct transform|].
  by apply assert_same_length_ok.
Qed.

Lemma MultiTensorDataset_len_ok (data : list ndarray)
    (transform : option (value → result value)) (self : MultiTensorDataset)
    (d : ndarray) :
  MultiTensorDataset_init to_float32 data transform = Ok self →
  d ∈ data →
  ∃ rs, d = Rows rs ∧ MultiTensorDataset_len self = Ok (Z.of_nat (length rs)).
Proof.
  intros Hinit Hd.
  destruct (MultiTensorDataset_init_ok _ _ _ Hinit) as (Hdata & _ & Hall).
  destruct (Hall d Hd) as (first & n & Hfirst & Hn0 & Hn).
  destruct (shape0_Rows _ _ Hn) as (rs & -> & ->). exists rs. split; [done|].
  destruct (shape0_Rows _ _ Hn0) as (rs0 & -> & Hlen).
  unfold MultiTensorDataset_len. rewrite Hdata, seq_getitem_map, Hfirst.
  cbn [bind size0 tensor_size0 storage astype_float32 shape].
  unfold tensor_size0. cbn [storage shape].
  by rewrite seq_getitem_0, length_map, Hlen.
Qed.

(** C4.  A [MultiTensorDataset] built without a transform returns, at
    every index from 0 up to the shared first dimension, a tuple with
    one entry per field, and the entry of a field is the tensor made
    from the [float32] cast of the raw array's slice at that index. *)
Theorem coerced_item (data : list ndarray) (self : MultiTensorDataset) (index : Z) :
  MultiTensorDataset_init to_float32 data None = Ok self →
  (∀ n, MultiTensorDataset_len self = Ok n → 0 <= index < n) →
  ∃ items,
    MultiTensorDataset_getitem self index = Ok (VTuple items) ∧
    length items = length data ∧
    ∀ pos d, data !! pos = Some d →
      ∃ raw v, ndarray_getitem d index = Ok raw ∧
               from_numpy (VArray (astype_float32 to_float32 raw)) = Ok v ∧
               items !! pos = Some v.
Proof.
  intros Hinit Hindex.
  destruct (MultiTensorDataset_init_ok _ _ _ Hinit) as (Hdata & Htr & _).
  unfold MultiTensorDataset_getitem. rewrite Htr, Hdata. simpl.
  destruct (for_each_ok (λ d, py_getitem d index)
    (map (λ d, VTensor (Tensor (astype_float32 to_float32 d) false)) data))
    as (items & -> & Hlen & Hitems).
  { intros t Ht. apply list_elem_of_fmap in Ht as (d & -> & Hd).
    destruct (MultiTensorDataset_len_ok _ _ _ _ Hinit Hd) as (rs & -> & Hn).
    destruct (seq_getitem_valid rs index) as [r Hr];
      [specialize (Hindex _ Hn); lia|].
    exists (VTensor (Tensor (astype_float32 to_float32 r) false)).
    cbn [py_getitem astype_float32]. unfold tensor_getitem, ndarray_getitem.
    cbn [storage is_cuda]. by rewrite seq_getitem_map, Hr. }
  exists items. rewrite length_map in Hlen. split_and!; [done..|].
  intros pos d Hpos.
  destruct (Hitems pos (VTensor (Tensor (astype_float32 to_float32 d) false))) as (v & Hv & Hpos').
  { by rewrite list_lookup_fmap, Hpos. }
  apply list_elem_of_lookup_2 in Hpos as Hd.
  destruct (MultiTensorDataset_len_ok _ _ _ _ Hinit Hd) as (rs & -> & Hn).
  cbn [py_getitem astype_float32] in Hv. unfold tensor_getitem, ndarray_getitem in *.
  cbn [storage is_cuda] in Hv. rewrite seq_getitem_map in Hv.
  destruct (seq_getitem rs index) as [raw|] eqn:Hraw; cbn [bind] in Hv; [|done].
  injection Hv as <-. exists raw. eexists. by split_and!.
Qed.

(** ** Indexing at the reported length *)

Lemma for_each_first_raises {A B} (f : A → result B) (x : A) (xs : list A) (e : exn) :
  f x = Raise e → for_each f (x :: xs) = Raise e.
Proof. intros H. cbn [for_each]. by rewrite H. Qed.

(** [H5Dataset]: the index [len(dataset)] is out of range for the first
    field, so the access raises before the transform is reached. *)
Lemma H5Dataset_getitem_at_len (fid : gmap string ndarray) (keys : list string)
    (info_name : option string) (transform : option DataTransform)
    (attrs : gmap string (value → value)) (self : H5Dataset) (m : Z) :
  H5Dataset_init fid keys info_name transform attrs = Ok self →
  H5Dataset_len self = Ok m →
  H5Dataset_getitem self m = Raise IndexError.
Proof.
  unfold H5Dataset_init, H5Dataset_len. intros Hinit Hm.
  destruct (check_keys fid keys None) as [m'|] eqn:Hkeys;
    cbn [bind] in Hinit; [|done].
  destruct (match info_name with Some _ => _ | None => _ end) as [info|];
    cbn [bind] in Hinit; [|done].
  injection Hinit as <-. cbn [H5_len] in Hm. destruct m' as [n|]; [|done].
  injection Hm as ->.
  destruct (check_keys_ok _ _ _ _ Hkeys) as [[_ [=]]|(n & [= <-] & _ & Hall)].
  unfold H5Dataset_getitem. cbn [H5_data_keys H5_fid].
  destruct keys as [|key keys]; [by inversion Hkeys|].
  destruct (Hall key) as (rs & Hrs & <-); [left|].
  rewrite for_each_first_raises with (e := IndexError); [done|].
  unfold h5_getitem. rewrite Hrs. cbn [bind ndarray_getitem].
  by rewrite seq_getitem_length.
Qed.

(** [MultiTensorDataset]: the same, whatever the transform. *)
Lemma MultiTensorDataset_getitem_at_len (data : list ndarray)
    (transform : option (value → result value)) (self : MultiTensorDataset) (n : Z) :
  MultiTensorDataset_init to_float32 data transform = Ok self →
  MultiTensorDataset_len self = Ok n →
  MultiTensorDataset_getitem self n = Raise IndexError.
Proof.
  intros Hinit Hn.
  destruct (MultiTensorDataset_init_ok _ _ _ Hinit) as (Hdata & _ & _).
  destruct data as [|d data].
  { unfold MultiTensorDataset_len in Hn. by rewrite Hdata in Hn. }
  destruct (MultiTensorDataset_len_ok _ _ _ d Hinit) as (rs & -> & Hn'); [left|].
  assert (n = Z.of_nat (length rs)) as -> by congruence.
  unfold MultiTensorDataset_getitem. rewrite Hdata. cbn [map].
  rewrite for_each_first_raises with (e := IndexError); [done|].
  cbn [py_getitem astype_float32]. unfold tensor_getitem, ndarray_getitem.
  cbn [storage]. by rewrite seq_getitem_map, seq_getitem_length.
Qed.

(** [ListDataset]: the reported length is the number of sequences, and
    the item at that index exists as soon as the sequences are longer
    than their number. *)
Lemma ListDataset_getitem_at_len (seqs : list (list value)) (self : ListDataset) :
  ListDataset_init (map VList seqs) None = Ok self →
  (∀ xs, xs ∈ seqs → (length seqs < length xs)%nat) →
  ∃ n items, ListDataset_len self = Ok n ∧
             ListDataset_getitem self n = Ok (VTuple items) ∧
             length items = length seqs.
Proof.
  unfold ListDataset_init. intros Hinit Hlong.
  destruct (check_len (map VList seqs)) as [[]|]; cbn [bind] in Hinit; [|done].
  injection Hinit as <-.
  unfold ListDataset_len, ListDataset_getitem. cbn [LD_data LD_transform].
  rewrite length_map.
  destruct (for_each_ok (λ d, py_getitem d (Z.of_nat (length seqs))) (map VList seqs))
    as (items & Hitems & Hlen & _).
  { intros d Hd. apply list_elem_of_fmap in Hd as (xs & -> & Hxs).
    cbn [py_getitem]. apply seq_getitem_valid. specialize (Hlong xs Hxs). lia. }
  exists (Z.of_nat (length seqs)), items. rewrite length_map in Hlen.
  split_and!; [done| |done]. by rewrite Hitems.
Qed.

(** ** The conversion helper *)

(** C6 (as amended).  On an input [[(t1, e2), (t3, e4)]] whose selected
    entries [t1] and [t3] are tensors, with [cuda=False] and
    [filter=(True, False)], [to_variable] yields two tuples and ends
    normally: in each tuple the first entry is wrapped by [Variable] with
    the given keyword arguments, without a call of [cuda], and the second
    entry, the numbers 2 and 4 for instance, is passed through as it
    is. *)
Theorem to_variable_selected_tensors (t1 t3 : @tensor scalar) (e2 e4 : value)
    (kw : kwargs) :
  to_variable [VTuple [VTensor t1; e2]; VTuple [VTensor t3; e4]]
              false (Some [true; false]) kw =
    ([VTuple [Variable_ (VTensor t1) kw; e2];
      VTuple [Variable_ (VTensor t3) kw; e4]], None).
Proof. reflexivity. Qed.

Lemma infer_filter_total (elem : value) :
  ∃ mask, infer_filter elem = Ok mask ∧
          (is_tuple_or_list elem = false → mask = [true]) ∧
          (∀ n, py_len elem = Ok n → is_tuple_or_list elem = true →
                mask = replicate (Z.to_nat n) true).
Proof.
  unfold infer_filter.
  destruct elem; cbn [is_tuple_or_list negb py_len bind];
    eexists; (split_and!; [done|try done|]); try done;
    by intros n [= <-] _.
Qed.

Lemma to_variable_round_keeps_filter (cuda_flag : bool) (kw : kwargs)
    (mask : list bool) (elem out : value) (filter' : option (list bool)) :
  to_variable_round cuda_flag kw (Some mask) elem = Ok (out, filter') →
  filter' = Some mask.
Proof.
  unfold to_variable_round. cbn [bind].
  destruct (py_iter elem); cbn [bind]; [|done].
  destruct cuda_flag; destruct (for_each _ _); cbn [bind]; congruence.
Qed.

Lemma wrap_tensors (kw : kwargs) (pairs : list (bool * value)) :
  Forall (λ fe : bool * value, fe.1 = true → is_tensor fe.2 = true) pairs →
  for_each (λ fe : bool * value, if fe.1 then Variable_call fe.2 kw else Ok fe.2)
           pairs =
    Ok (map (λ fe : bool * value, if fe.1 then Variable_ fe.2 kw else fe.2) pairs).
Proof.
  induction 1 as [|[f e] pairs Hfe _ IH]; [done|].
  cbn [for_each]. rewrite IH. destruct f; [|done].
  cbn [fst snd] in *. unfold Variable_call. by rewrite Hfe.
Qed.

Lemma zip_tensors (mask : list bool) (es : list value) :
  Forall (λ e, is_tensor e = true) es →
  Forall (λ fe : bool * value, fe.1 = true → is_tensor fe.2 = true) (zip mask es).
Proof.
  intros Hes. revert mask. induction Hes as [|e es He _ IH]; intros [|f mask];
    cbn [zip_with]; constructor; [by intros _|apply IH].
Qed.

Lemma to_variable_round_truncates (kw : kwargs) (mask : list bool)
    (elem : value) (es : list value) :
  py_iter elem = Ok es →
  Forall (λ e, is_tensor e = true) es →
  ∃ out, to_variable_round false kw (Some mask) elem = Ok (VTuple out, Some mask) ∧
         length out = (length mask `min` length es)%nat ∧
         ∀ (pos : nat) (f : bool) e, mask !! pos = Some f → es !! pos = Some e →
                    out !! pos = Some (if f then Variable_ e kw else e).
Proof.
  intros Hes Htensors. unfold to_variable_round. cbn [bind]. rewrite Hes. cbn [bind].
  rewrite wrap_tensors by by apply zip_tensors.
  cbn [bind]. eexists. split_and!; [done| |].
  - by rewrite length_map, length_zip_with.
  - intros pos f e Hf He. rewrite list_lookup_fmap.
    by rewrite lookup_zip_with, Hf, He.
Qed.

Lemma py_iter_raises (v : value) (e : exn) : py_iter v = Raise e → e = TypeError.
Proof.
  induction v as [n|a|t|d IH kw|xs|xs]; cbn [py_iter]; try congruence.
  - destruct a; congruence.
  - destruct t as [[|] c]; congruence.
  - destruct (py_iter d); cbn [bind]; [done|]. intros [= <-]. by apply IH.
Qed.

Lemma cuda_raises (v : value) (e : exn) : cuda v = Raise e → e = AttributeError "cuda".
Proof.
  induction v as [n|a|t|d IH kw|xs|xs]; cbn [cuda]; try congruence.
  destruct (cuda d); cbn [bind]; [done|]. intros [= <-]. by apply IH.
Qed.

Lemma for_each_raises {A B} (f : A → result B) (xs : list A) (e : exn) :
  for_each f xs = Raise e → ∃ x, x ∈ xs ∧ f x = Raise e.
Proof.
  induction xs as [|x xs IH]; [done|]. cbn [for_each].
  destruct (f x) eqn:Hx; cbn [bind].
  - destruct (for_each f xs); cbn [bind]; [done|]. intros [= <-].
    destruct IH as (x' & ? & ?); [done|]. exists x'. split; [by right|done].
  - intros [= <-]. exists x. split; [by left|done].
Qed.

Lemma Variable_call_raises (v : value) (kw : kwargs) (e : exn) :
  Variable_call v kw = Raise e → e = TypeError.
Proof. unfold Variable_call. destruct (is_tensor v); congruence. Qed.

(** No round of the loop raises [IndexError]. *)
Lemma to_variable_round_no_IndexError (cuda_flag : bool) (kw : kwargs)
    (filter : option (list bool)) (elem : value) :
  to_variable_round cuda_flag kw filter elem ≠ Raise IndexError.
Proof.
  unfold to_variable_round.
  assert (∃ mask, match filter with None => infer_filter elem | Some f => Ok f end
                  = Ok mask) as [mask ->].
  { destruct filter; [eauto|]. destruct (infer_filter_total elem) as (? & ? & _). eauto. }
  cbn [bind]. destruct (py_iter elem) as [es|e] eqn:Hes; cbn [bind].
  - destruct cuda_flag.
    + destruct (for_each _ _) as [out|e] eqn:Hout; cbn [bind]; [done|].
      apply for_each_raises in Hout as ([f x] & _ & Hx). cbn [fst snd] in Hx.
      destruct f; [|done].
      destruct (cuda x) eqn:Hc; cbn [bind] in Hx.
      * apply Variable_call_raises in Hx. congruence.
      * injection Hx as <-. apply cuda_raises in Hc. congruence.
    + destruct (for_each _ _) as [out|e] eqn:Hout; cbn [bind]; [done|].
      apply for_each_raises in Hout as ([f x] & _ & Hx). cbn [fst snd] in Hx.
      destruct f; [|done]. apply Variable_call_raises in Hx. congruence.
  - apply py_iter_raises in Hes. congruence.
Qed.

Lemma to_variable_no_IndexError (iter : list value) (cuda_flag : bool)
    (filter : option (list bool)) (kw : kwargs) :
  (to_variable iter cuda_flag filter kw).2 ≠ Some IndexError.
Proof.
  revert filter. induction iter as [|elem rest IH]; intros filter; [done|].
  cbn [to_variable].
  destruct (to_variable_round cuda_flag kw filter elem) as [[out filter']|e] eqn:Hr.
  - apply IH.
  - cbn [snd]. intros [= ->].
    by apply (to_variable_round_no_IndexError cuda_flag kw filter elem).
Qed.

(** C7 (as amended).  Without a filter, the first round of the loop
    infers one from the first element ([True] once for each of its
    entries when it is a tuple or a list), and the generator then
    behaves as if that filter had been supplied: every later round
    leaves it as it is.  A later element whose number of entries differs
    from the length of the filter raises no [IndexError]: with
    [cuda=False] the round on an element whose entries are tensors
    yields a tuple with as many entries as the shorter of filter and
    element, and no run of the generator ends in an [IndexError]. *)
Theorem filter_inferred_once (first : value) (rest : list value)
    (cuda_flag : bool) (kw : kwargs) :
  ∃ mask,
    infer_filter first = Ok mask ∧
    (∀ n, py_len first = Ok n → is_tuple_or_list first = true →
          mask = replicate (Z.to_nat n) true) ∧
    to_variable (first :: rest) cuda_flag None kw =
      to_variable (first :: rest) cuda_flag (Some mask) kw ∧
    (∀ (elem out : value) filter',
       to_variable_round cuda_flag kw (Some mask) elem = Ok (out, filter') →
       filter' = Some mask) ∧
    (∀ (elem : value) es, py_iter elem = Ok es →
       Forall (λ e, is_tensor e = true) es →
       ∃ out, to_variable_round false kw (Some mask) elem = Ok (VTuple out, Some mask) ∧
              length out = (length mask `min` length es)%nat) ∧
    (to_variable (first :: rest) cuda_flag None kw).2 ≠ Some IndexError.
Proof.
  destruct (infer_filter_total first) as (mask & Hmask & _ & Hall).
  exists mask. split_and!; [done|done| | | |].
  - cbn [to_variable]. unfold to_variable_round. by rewrite Hmask.
  - intros elem out filter'. apply to_variable_round_keeps_filter.
  - intros elem es Hes Htensors.
    destruct (to_variable_round_truncates kw mask elem es Hes Htensors)
      as (out & ? & ? & _).
    eauto.
  - apply to_variable_no_IndexError.
Qed.

(** ** The raw in-memory dataset *)

(** C8.  On every [NumpyDataset] that has been constructed, [len] raises:
    with at least one field the call of the shape tuple raises
    [TypeError], so the first dimension is never returned. *)
Theorem numpy_len_raises (data : list ndarray) (self : NumpyDataset) :
  NumpyDataset_init data = Ok self →
  ∃ e, NumpyDataset_len self = Raise e ∧ (data ≠ [] → e = TypeError).
Proof.
  unfold NumpyDataset_init. intros Hinit.
  destruct (check_first_dim data) as [[]|]; cbn [bind] in Hinit; [|done].
  injection Hinit as <-. unfold NumpyDataset_len. cbn [NP_data].
  destruct data as [|d data].
  - by exists IndexError.
  - exists TypeError. by rewrite seq_getitem_0.
Qed.

(** ** Methods that leave the dataset as it is *)

(** C9.  [as_variables] returns a tuple with one entry per stored field,
    the entry of a field being [Variable] applied to that field with the
    given keyword arguments, and the dataset after the call is the
    dataset before the call. *)
Theorem as_variables_frame (self : MultiTensorDataset) (kw : kwargs) :
  (as_variables kw self).2 = self ∧
  ∃ items,
    (as_variables kw self).1 = Ok (VTuple items) ∧
    length items = length (MT_data self) ∧
    ∀ pos : nat, items !! pos = (λ v, Variable_ v kw) <$> (MT_data self !! pos).
Proof.
  split; [done|]. eexists. split_and!; [done| |].
  - by rewrite length_map.
  - intros pos. apply list_lookup_fmap.
Qed.

(** ** Initializing twice *)

Lemma customized_twice_longer (tees c : list string) :
  c ≠ [] → (tees ++ c) ++ c ≠ tees ++ c.
Proof.
  intros Hc Heq. apply (f_equal length) in Heq. rewrite !length_app in Heq.
  destruct c; [done|]. simpl in Heq. lia.
Qed.

(** C10.  A second [initialize] of a [TransformFromFuncs] against the
    same dataset leaves what the transform returns on every item
    unchanged, and appends the customized keys to [transformees] once
    more; a fresh transform initialized twice is described with every
    customized key listed twice, and whenever there is a customized key
    the transform after the second call differs from the transform
    after the first. *)
Theorem initialize_twice (dataset : H5Dataset) (transformees : list string)
    (old : option (list (value → value))) :
  let once := initialize dataset (TransformFromFuncs transformees old) in
  let twice := initialize dataset once in
  (∀ item, call twice item = call once item) ∧
  once = TransformFromFuncs (transformees ++ customized dataset)
           (Some (map (bound_function dataset) (H5_data_keys dataset))) ∧
  twice = TransformFromFuncs ((transformees ++ customized dataset) ++ customized dataset)
            (Some (map (bound_function dataset) (H5_data_keys dataset))) ∧
  repr (initialize dataset (initialize dataset TransformFromFuncs_new)) =
    "TransformFromFuncs(" +:+
      join ", " (customized dataset ++ customized dataset) +:+ ")" ∧
  (customized dataset ≠ [] → twice ≠ once).
Proof.
  intros once twice. subst once twice. unfold TransformFromFuncs_new.
  rewrite !initialize_TransformFromFuncs. split_and!; [done..|].
  intros Hc [= Heq]. by apply customized_twice_longer in Heq.
Qed.

(** C1 (as amended).  For each of the four dataset classes, construction
    from fields that all have a length along the first dimension, two of
    which differ, raises an [AssertionError].  For [H5Dataset] a key
    missing from the file raises an [AssertionError] whose message
    contains that key, while the error for a length mismatch carries the
    fixed message ['Length of datasets do not match'], whatever the key. *)
Theorem mismatched_lengths_rejected :
  (∀ (fid : gmap string ndarray) keys info_name transform attrs,
     (∀ k, k ∈ keys → ∃ d n, fid !! k = Some d ∧ ndarray_len d = Ok n) →
     (∃ k1 k2 d1 d2, k1 ∈ keys ∧ k2 ∈ keys ∧ fid !! k1 = Some d1 ∧
                     fid !! k2 = Some d2 ∧ ndarray_len d1 ≠ ndarray_len d2) →
     H5Dataset_init fid keys info_name transform attrs =
       Raise (AssertionError "Length of datasets do not match")) ∧
  (∀ (fid : gmap string ndarray) n pre key post info_name transform attrs,
     (∀ k, k ∈ pre → ∃ d, fid !! k = Some d ∧ ndarray_len d = Ok n) →
     fid !! key = None →
     H5Dataset_init fid (pre ++ key :: post) info_name transform attrs =
       Raise (AssertionError ("Could not find " +:+ key +:+ " in file")) ∧
     contains key ("Could not find " +:+ key +:+ " in file") = true) ∧
  (∀ (data : list ndarray) transform,
     (∀ d, d ∈ data → ∃ n, shape0 d = Ok n) →
     (∃ d1 d2, d1 ∈ data ∧ d2 ∈ data ∧ shape0 d1 ≠ shape0 d2) →
     MultiTensorDataset_init to_float32 data transform =
       Raise (AssertionError "datasets must have same first dimension")) ∧
  (∀ data : list ndarray,
     (∀ d, d ∈ data → ∃ n, shape0 d = Ok n) →
     (∃ d1 d2, d1 ∈ data ∧ d2 ∈ data ∧ shape0 d1 ≠ shape0 d2) →
     NumpyDataset_init data =
       Raise (AssertionError "datasets must have same first dimension")) ∧
  (∀ (data : list value) transform,
     (∀ d, d ∈ data → ∃ n, py_len d = Ok n) →
     (∃ d1 d2, d1 ∈ data ∧ d2 ∈ data ∧ py_len d1 ≠ py_len d2) →
     ListDataset_init data transform =
       Raise (AssertionError "datasets must have same first dimension")).
Proof.
  split_and!.
  - intros fid keys info_name transform attrs Hlen Hne.
    unfold H5Dataset_init. by rewrite check_keys_mismatch.
  - intros fid n pre key post info_name transform attrs Hlen Hkey. split.
    + unfold H5Dataset_init. by rewrite (check_keys_missing fid n).
    + apply contains_app.
  - intros data transform Hlen Hne.
    unfold MultiTensorDataset_init, check_first_dim.
    by rewrite assert_same_length_mismatch.
  - intros data Hlen Hne.
    unfold NumpyDataset_init, check_first_dim.
    by rewrite assert_same_length_mismatch.
  - intros data transform Hlen Hne.
    unfold ListDataset_init, check_len.
    by rewrite assert_same_length_mismatch.
Qed.

(** * Further properties of the code *)

(** ** Transforms *)

Lemma DataTransform_nested_ind (P : DataTransform → Prop) :
  (∀ transformees trs, P (TransformFromFuncs transformees trs)) →
  P ToTensor →
  (∀ transforms, Forall P transforms → P (Chain transforms)) →
  ∀ tr, P tr.
Proof.
  intros Hfuncs Htensor Hchain. fix IH 1.
  intros [transformees trs| |transforms]; [apply Hfuncs|apply Htensor|].
  apply Hchain. induction transforms as [|tr transforms IHts]; constructor.
  - apply IH.
  - apply IHts.
Qed.

Lemma chain_loop_raise (transforms : list DataTransform) (e : exn) :
  fold_left (λ acc tr, item <- acc ;; call tr item) transforms (Raise e) = Raise e.
Proof. induction transforms as [|tr transforms IH]; [done|apply IH]. Qed.

Lemma chain_loop_bind (transforms : list DataTransform) (acc : result value) :
  fold_left (λ acc tr, item <- acc ;; call tr item) transforms acc =
    (item <- acc ;; call (Chain transforms) item).
Proof. destruct acc as [item|e]; [done|apply chain_loop_raise]. Qed.

Lemma call_Chain_cons (tr : DataTransform) (transforms : list DataTransform)
    (item : value) :
  call (Chain (tr :: transforms)) item =
    (out <- call tr item ;; call (Chain transforms) out).
Proof. cbn [call fold_left bind]. apply chain_loop_bind. Qed.

(** X1.  A chain applies its parts in order: the chain of [ts1] followed
    by [ts2] returns what the chain of [ts2] returns on the result of
    the chain of [ts1], and raises what the chain of [ts1] raises; a
    chain nested inside a chain behaves as its parts put in line, and
    the empty chain returns its item. *)
Theorem chain_composes (ts1 ts2 : list DataTransform) (item : value) :
  call (Chain (ts1 ++ ts2)) item =
    (out <- call (Chain ts1) item ;; call (Chain ts2) out) ∧
  call (Chain (Chain ts1 :: ts2)) item = call (Chain (ts1 ++ ts2)) item ∧
  call (Chain []) item = Ok item.
Proof.
  assert (∀ item, call (Chain (ts1 ++ ts2)) item =
    (out <- call (Chain ts1) item ;; call (Chain ts2) out)) as Happ.
  { clear item. induction ts1 as [|tr ts1 IH]; intros item; [done|].
    rewrite <- app_comm_cons, !call_Chain_cons.
    destruct (call tr item) as [out|e]; cbn [bind]; [apply IH|done]. }
  split_and!; [apply Happ| |done].
  by rewrite call_Chain_cons, Happ.
Qed.

Lemma for_each_from_numpy_arrays (arrs : list ndarray) :
  for_each from_numpy (map VArray arrs) =
    Ok (map (λ a, VTensor (Tensor a false)) arrs).
Proof. induction arrs as [|a arrs IH]; [done|]. cbn [for_each map]. by rewrite IH. Qed.

Lemma for_each_raises_at {A B} (f : A → result B) (xs : list A) (x : A) (e : exn) :
  x ∈ xs → f x = Raise e → (∀ y e', f y = Raise e' → e' = e) →
  for_each f xs = Raise e.
Proof.
  intros Hx Hfx Hsame. induction xs as [|y xs IH]; [by apply elem_of_nil in Hx|].
  cbn [for_each]. destruct (f y) as [b|e'] eqn:Hy; cbn [bind].
  - apply elem_of_cons in Hx as [->|Hx]; [congruence|]. by rewrite IH.
  - f_equal. by apply Hsame in Hy.
Qed.

Lemma from_numpy_raises (v : value) (e : exn) : from_numpy v = Raise e → e = TypeError.
Proof. destruct v; cbn [from_numpy]; congruence. Qed.

(** X2.  [ToTensor] converts a tuple of arrays entry by entry, into
    tensors on the CPU over the same data, and raises [TypeError] as
    soon as the tuple holds an entry that is not an array. *)
Theorem to_tensor_arrays_only (arrs : list ndarray) (items : list value) (v : value) :
  call ToTensor (VTuple (map VArray arrs)) =
    Ok (VTuple (map (λ a, VTensor (Tensor a false)) arrs)) ∧
  (v ∈ items → (∀ a, v ≠ VArray a) →
   call ToTensor (VTuple items) = Raise TypeError).
Proof.
  split.
  - cbn [call py_iter bind]. by rewrite for_each_from_numpy_arrays.
  - intros Hv Hnot. cbn [call py_iter bind].
    rewrite (for_each_raises_at from_numpy items v TypeError); [done|done| |].
    + destruct v; try done. by destruct (Hnot a).
    + intros y e'. apply from_numpy_raises.
Qed.

(** X3.  An initialized [TransformFromFuncs] never raises on an iterable
    item: it returns a tuple with as many entries as the shorter of the
    dataset's keys and the item, each entry being the function bound to
    the key at that position applied to the item's entry.  On an item
    that cannot be iterated it raises [TypeError]. *)
Theorem transform_from_funcs_arity (dataset : H5Dataset)
    (transformees : list string) (old : option (list (value → value)))
    (item : value) :
  let tr := initialize dataset (TransformFromFuncs transformees old) in
  (∀ its, py_iter item = Ok its →
     ∃ out, call tr item = Ok (VTuple out) ∧
            length out = (length (H5_data_keys dataset) `min` length its)%nat ∧
            ∀ (pos : nat) d it, H5_data_keys dataset !! pos = Some d →
                  its !! pos = Some it →
                  out !! pos = Some (bound_function dataset d it)) ∧
  (∀ e, py_iter item = Raise e → call tr item = Raise TypeError).
Proof.
  intros tr. subst tr. rewrite initialize_TransformFromFuncs. cbn [call]. split.
  - intros its ->. cbn [bind]. eexists. split_and!; [done| |].
    + by rewrite length_zip_with, length_map.
    + intros pos d it Hd Hit.
      by rewrite lookup_zip_with, list_lookup_fmap, Hd, Hit.
  - intros e He. rewrite He. cbn [bind]. f_equal. by apply py_iter_raises in He.
Qed.

Lemma concat_replicate_snoc {A} (k : nat) (c : list A) :
  concat (replicate k c) ++ c = c ++ concat (replicate k c).
Proof.
  induction k as [|k IH]; cbn [replicate concat].
  - by rewrite app_nil_r.
  - by rewrite <- app_assoc, IH.
Qed.

Lemma initialize_keeps_bound (dataset : H5Dataset) (n : nat)
    (transformees : list string) (old : option (list (value → value))) :
  Nat.iter (S n) (initialize dataset) (TransformFromFuncs transformees old) =
    TransformFromFuncs
      (transformees ++ concat (replicate (S n) (customized dataset)))
      (Some (map (bound_function dataset) (H5_data_keys dataset))).
Proof.
  induction n as [|n IH].
  - cbn [Nat.iter nat_rect replicate concat].
    by rewrite initialize_TransformFromFuncs, app_nil_r.
  - change (Nat.iter (S (S n)) (initialize dataset) ?t)
      with (initialize dataset (Nat.iter (S n) (initialize dataset) t)).
    rewrite IH, initialize_TransformFromFuncs. f_equal.
    rewrite <- app_assoc. f_equal.
    rewrite concat_replicate_snoc. done.
Qed.

(** X4.  Every call of [initialize] on a [TransformFromFuncs] appends the
    customized keys once more: after [n + 1] calls against the same
    dataset [transformees] holds the initial names followed by [n + 1]
    copies of the customized keys, while [_transforms] is what one call
    builds. *)
Theorem initialize_accumulates (dataset : H5Dataset) (n : nat)
    (transformees : list string) (old : option (list (value → value))) :
  Nat.iter (S n) (initialize dataset) (TransformFromFuncs transformees old) =
    TransformFromFuncs
      (transformees ++ concat (replicate (S n) (customized dataset)))
      (Some (map (bound_function dataset) (H5_data_keys dataset))) ∧
  ∀ item,
    call (Nat.iter (S n) (initialize dataset) (TransformFromFuncs transformees old)) item =
    call (initialize dataset (TransformFromFuncs transformees old)) item.
Proof.
  split; [apply initialize_keeps_bound|].
  intros item. by rewrite initialize_keeps_bound, initialize_TransformFromFuncs.
Qed.

Lemma call_initialized_raises (dataset : H5Dataset) (tr : DataTransform) :
  ∀ item e, call (initialize dataset tr) item = Raise e → e = TypeError.
Proof.
  induction tr as [transformees trs| |transforms IH] using DataTransform_nested_ind;
    intros item e.
  - rewrite initialize_TransformFromFuncs. cbn [call].
    destruct (py_iter item) as [its|e'] eqn:Hits; cbn [bind]; [done|].
    intros [= <-]. by apply py_iter_raises in Hits.
  - cbn [initialize call].
    destruct (py_iter item) as [its|e'] eqn:Hits; cbn [bind].
    + destruct (for_each from_numpy its) as [ts|e'] eqn:Hts; cbn [bind]; [done|].
      intros [= <-]. apply for_each_raises in Hts as (x & _ & Hx).
      by apply from_numpy_raises in Hx.
    + intros [= <-]. by apply py_iter_raises in Hits.
  - cbn [initialize]. revert item.
    induction IH as [|tr transforms Htr _ IHts]; intros item; [done|].
    cbn [map]. rewrite call_Chain_cons.
    destruct (call (initialize dataset tr) item) as [out|e'] eqn:Hout; cbn [bind].
    + apply IHts.
    + intros [= <-]. by apply Htr in Hout.
Qed.

(** X5.  Once [initialize] has run, a transform built from
    [TransformFromFuncs], [ToTensor] and [Chain] raises nothing but
    [TypeError]: in particular the [AttributeError] of a
    [TransformFromFuncs] that was never initialized cannot occur, at any
    depth of a chain. *)
Theorem initialized_raises_only_TypeError (dataset : H5Dataset) (tr : DataTransform)
    (item : value) (e : exn) :
  call (initialize dataset tr) item = Raise e → e = TypeError.
Proof. apply call_initialized_raises. Qed.

(** X6.  Initializing any transform a second time against the same
    dataset does not change what it returns or raises, on any item and
    at any depth of a chain. *)
Theorem reinitialize_same_results (dataset : H5Dataset) (tr : DataTransform)
    (item : value) :
  call (initialize dataset (initialize dataset tr)) item =
    call (initialize dataset tr) item.
Proof.
  revert item.
  induction tr as [transformees trs| |transforms IH] using DataTransform_nested_ind;
    intros item.
  - by rewrite !initialize_TransformFromFuncs.
  - done.
  - cbn [initialize]. revert item.
    induction IH as [|tr transforms Htr _ IHts]; intros item; [done|].
    cbn [map]. rewrite !call_Chain_cons, Htr.
    destruct (call (initialize dataset tr) item); cbn [bind]; [apply IHts|done].
Qed.

Lemma string_app_nil_r (s : string) : s +:+ "" = s.
Proof.
  induction s as [|c s IH]; [done|].
  change (String c s +:+ "") with (String c (s +:+ "")). by rewrite IH.
Qed.

Lemma string_app_assoc (s1 s2 s3 : string) : (s1 +:+ s2) +:+ s3 = s1 +:+ s2 +:+ s3.
Proof.
  induction s1 as [|c s1 IH]; [done|].
  change ((String c s1 +:+ s2) +:+ s3) with (String c ((s1 +:+ s2) +:+ s3)).
  by rewrite IH.
Qed.

Lemma contains_join (sep d : string) (before after : list string) :
  contains d (join sep (before ++ d :: after)) = true.
Proof.
  apply contains_spec.
  induction before as [|b before (pre & post & IH)].
  - destruct after as [|a after]; cbn [app join].
    + exists "", "". by rewrite string_app_nil_r.
    + by exists "", (sep +:+ join sep (a :: after)).
  - cbn [app]. destruct (before ++ d :: after) as [|x rest] eqn:E.
    { by destruct before. }
    change (join sep (b :: x :: rest)) with (b +:+ sep +:+ join sep (x :: rest)).
    rewrite IH. exists (b +:+ sep +:+ pre), post.
    by rewrite !string_app_assoc.
Qed.

(** X7.  The description of a [TransformFromFuncs] names every key it
    has customized: after [initialize], [repr] contains each key of the
    dataset that has a [_transform] attribute. *)
Theorem repr_names_customized (dataset : H5Dataset) (transformees : list string)
    (old : option (list (value → value))) (d : string) :
  d ∈ H5_data_keys dataset →
  is_Some (H5_attrs dataset !! (d +:+ "_transform")) →
  contains d (repr (initialize dataset (TransformFromFuncs transformees old))) = true.
Proof.
  intros Hd Hattr. rewrite initialize_TransformFromFuncs. cbn [repr].
  assert (d ∈ customized dataset) as Hc.
  { unfold customized. apply list_elem_of_In, filter_In. split.
    - by apply list_elem_of_In.
    - unfold hasattr. by apply bool_decide_eq_true_2. }
  apply list_elem_of_split in Hc as (before & after & ->).
  rewrite app_assoc.
  pose proof (contains_join ", " d (transformees ++ before) after) as Hin.
  apply contains_spec in Hin as (pre & post & ->).
  apply contains_spec. exists ("TransformFromFuncs(" +:+ pre), (post +:+ ")").
  by rewrite !string_app_assoc.
Qed.

(** ** The file-backed dataset *)

Lemma H5Dataset_init_inv (fid : gmap string ndarray) (keys : list string)
    (info_name : option string) (transform : option DataTransform)
    (attrs : gmap string (value → value)) (self : H5Dataset) :
  H5Dataset_init fid keys info_name transform attrs = Ok self →
  ∃ m, check_keys fid keys None = Ok m ∧
       H5_fid self = fid ∧ H5_len self = m ∧ H5_data_keys self = keys ∧
       H5_attrs self = attrs ∧
       (∀ name, info_name = Some name → H5_info self = fid !! name) ∧
       (info_name = None → H5_info self = None).
Proof.
  unfold H5Dataset_init. intros Hinit.
  destruct (check_keys fid keys None) as [m|]; cbn [bind] in Hinit; [|done].
  exists m. destruct info_name as [name|]; unfold h5_getitem in Hinit.
  - destruct (fid !! name) as [d|] eqn:Hd; cbn [bind] in Hinit; [|done].
    injection Hinit as <-. split_and!; try done. by intros ? [= <-].
  - cbn [bind] in Hinit. injection Hinit as <-. by split_and!.
Qed.

(** X8.  A constructed [H5Dataset] keeps the file, the keys and the
    attributes it was given, and its length is the length of every
    field: each key is in the file with a dataset of [len(dataset)]
    rows.  Without keys the stored length is [None]. *)
Theorem H5Dataset_init_invariant (fid : gmap string ndarray) (keys : list string)
    (info_name : option string) (transform : option DataTransform)
    (attrs : gmap string (value → value)) (self : H5Dataset) :
  H5Dataset_init fid keys info_name transform attrs = Ok self →
  H5_fid self = fid ∧ H5_data_keys self = keys ∧ H5_attrs self = attrs ∧
  (keys = [] → H5_len self = None) ∧
  (∀ k, k ∈ keys →
     ∃ rs, fid !! k = Some (Rows rs) ∧ H5_len self = Some (Z.of_nat (length rs))) ∧
  (∀ name, info_name = Some name → is_Some (fid !! name) ∧ H5_info self = fid !! name).
Proof.
  intros Hinit.
  destruct (H5Dataset_init_inv _ _ _ _ _ _ Hinit)
    as (m & Hkeys & Hfid & Hlen & Hdk & Hattrs & Hinfo & _).
  split_and!; [done..| | |].
  - intros ->. by injection Hkeys as <-.
  - intros k Hk.
    destruct (check_keys_ok _ _ _ _ Hkeys) as [[-> _]|(n & -> & _ & Hall)];
      [by apply elem_of_nil in Hk|].
    destruct (Hall k Hk) as (rs & Hrs & <-). eauto.
  - intros name ->. split; [|by apply Hinfo].
    unfold H5Dataset_init in Hinit. rewrite Hkeys in Hinit. cbn [bind] in Hinit.
    unfold h5_getitem in Hinit. by destruct (fid !! name).
Qed.

Lemma check_keys_all_agree (fid : gmap string ndarray) (n : Z) (keys : list string) :
  (∀ k, k ∈ keys → ∃ rs, fid !! k = Some (Rows rs) ∧ Z.of_nat (length rs) = n) →
  check_keys fid keys None = Ok (if keys is [] then None else Some n).
Proof.
  intros Hall.
  assert (∀ ks : list string, (∀ k, k ∈ ks → k ∈ keys) →
                ∀ k, k ∈ ks → ∃ d, fid !! k = Some d ∧ ndarray_len d = Ok n) as Hlen.
  { intros ks Hsub k Hk. destruct (Hall k (Hsub k Hk)) as (rs & Hrs & <-). eauto. }
  destruct keys as [|key keys]; [done|].
  destruct (Hall key) as (rs & Hrs & <-); [left|].
  cbn [check_keys]. unfold h5_getitem. rewrite Hrs.
  rewrite bool_decide_eq_true_2 by eauto. cbn [assert bind ndarray_len].
  rewrite <- (app_nil_r keys). rewrite check_keys_agree; [done|].
  apply Hlen. intros k Hk. by right.
Qed.

(** X9.  Construction succeeds whenever every key is in the file with a
    dataset of the same number of rows and the info name, if given, is
    in the file; the stored length is then that number of rows. *)
Theorem H5Dataset_init_succeeds (fid : gmap string ndarray) (n : Z)
    (keys : list string) (info_name : option string)
    (transform : option DataTransform) (attrs : gmap string (value → value)) :
  (∀ k, k ∈ keys → ∃ rs, fid !! k = Some (Rows rs) ∧ Z.of_nat (length rs) = n) →
  (∀ name, info_name = Some name → is_Some (fid !! name)) →
  ∃ self, H5Dataset_init fid keys info_name transform attrs = Ok self ∧
          (keys ≠ [] → H5_len self = Some n ∧ H5Dataset_len self = Ok n).
Proof.
  intros Hall Hinfo. unfold H5Dataset_init.
  rewrite (check_keys_all_agree fid n keys Hall). cbn [bind].
  assert (∃ info, match info_name with
                  | Some name => d <- h5_getitem fid name ;; Ok (Some d)
                  | None => Ok None
                  end = Ok info) as [info ->].
  { destruct info_name as [name|]; [|eauto].
    destruct (Hinfo name eq_refl) as [d Hd]. unfold h5_getitem. rewrite Hd. eauto. }
  cbn [bind]. eexists. split; [done|].
  intros Hne. unfold H5Dataset_len. cbn [H5_len]. by destruct keys.
Qed.

(** X10.  The keys are checked before the info name is looked up: when
    the keys pass and the info name is not in the file, construction
    raises [KeyError] with that name, not an [AssertionError]. *)
Theorem H5Dataset_info_missing (fid : gmap string ndarray) (n : Z)
    (keys : list string) (name : string)
    (transform : option DataTransform) (attrs : gmap string (value → value)) :
  (∀ k, k ∈ keys → ∃ rs, fid !! k = Some (Rows rs) ∧ Z.of_nat (length rs) = n) →
  fid !! name = None →
  H5Dataset_init fid keys (Some name) transform attrs = Raise (KeyError name).
Proof.
  intros Hall Hname. unfold H5Dataset_init.
  rewrite (check_keys_all_agree fid n keys Hall). cbn [bind].
  unfold h5_getitem. by rewrite Hname.
Qed.

(** The raw tuple that [__getitem__] fetches before it calls the
    transform. *)
Lemma fetch_raw (fid : gmap string ndarray) (n : Z) (keys : list string) (item : Z) :
  (∀ k, k ∈ keys → ∃ rs, fid !! k = Some (Rows rs) ∧ Z.of_nat (length rs) = n) →
  - n <= item < n →
  ∃ raws,
    for_each (λ d, a <- h5_getitem fid d ;; r <- ndarray_getitem a item ;; Ok (VArray r))
             keys = Ok (map VArray raws) ∧
    length raws = length keys ∧
    ∀ (pos : nat) key, keys !! pos = Some key →
      ∃ d raw, fid !! key = Some d ∧ ndarray_getitem d item = Ok raw ∧
               raws !! pos = Some raw.
Proof.
  intros Hall Hitem. induction keys as [|key keys IH].
  - exists []. by split_and!.
  - destruct (Hall key) as (rs & Hrs & Hn); [left|].
    destruct (seq_getitem_valid rs item) as [raw Hraw]; [lia|].
    destruct IH as (raws & Hraws & Hlen & Hpos).
    { intros k Hk. apply Hall. by right. }
    exists (raw :: raws). cbn [for_each]. unfold h5_getitem at 1.
    rewrite Hrs. cbn [bind ndarray_getitem]. rewrite Hraw. cbn [bind].
    rewrite Hraws. cbn [bind map length]. split_and!; [done|by rewrite Hlen|].
    intros [|pos] k; cbn [lookup list_lookup]; [|by apply Hpos].
    intros [= <-]. exists (Rows rs), raw. by split_and!.
Qed.

Lemma seq_getitem_elem {A} (xs : list A) (i : Z) (x : A) :
  seq_getitem xs i = Ok x → x ∈ xs.
Proof.
  unfold seq_getitem. destruct (_ && _); [|done].
  destruct (xs !! _) as [y|] eqn:Hy; [|done].
  intros [= <-]. by apply list_elem_of_lookup_2 in Hy.
Qed.

(** X11.  With the default transform and no [_transform] attribute on
    any key, on fields of two or more dimensions (every row of a field
    is an array again), the item at a valid index is the tuple of the
    fields' raw slices at that index, which are arrays, each turned into
    a tensor on the CPU. *)
Theorem H5Dataset_default_item (fid : gmap string ndarray) (keys : list string)
    (info_name : option string) (attrs : gmap string (value → value))
    (self : H5Dataset) (item : Z) :
  H5Dataset_init fid keys info_name None attrs = Ok self →
  (∀ d, d ∈ keys → attrs !! (d +:+ "_transform") = None) →
  (∀ key rs r, key ∈ keys → fid !! key = Some (Rows rs) → r ∈ rs →
               ∃ rr, r = Rows rr) →
  (∀ m, H5_len self = Some m → - m <= item < m) →
  ∃ raws,
    H5Dataset_getitem self item =
      Ok (VTuple (map (λ raw, VTensor (Tensor raw false)) raws)) ∧
    length raws = length keys ∧
    ∀ (pos : nat) key, keys !! pos = Some key →
      ∃ d raw rr, fid !! key = Some d ∧ ndarray_getitem d item = Ok raw ∧
                  raw = Rows rr ∧ raws !! pos = Some raw.
Proof.
  intros Hinit Hnone Hdims Hitem.
  destruct (H5Dataset_init_inv _ _ _ _ _ _ Hinit)
    as (m & Hkeys & Hfid & Hlen & Hdk & Hattrs & _).
  assert (∃ n, (∀ k, k ∈ keys →
                  ∃ rs, fid !! k = Some (Rows rs) ∧ Z.of_nat (length rs) = n) ∧
               - n <= item < n) as (n & Hall & Hn).
  { destruct (check_keys_ok _ _ _ _ Hkeys) as [[-> _]|(n & -> & _ & Hall)].
    - exists (Z.abs item + 1). split; [|lia]. intros k Hk. by apply elem_of_nil in Hk.
    - exists n. split; [done|]. apply Hitem. by rewrite Hlen. }
  destruct (fetch_raw fid n keys item Hall Hn) as (raws & Hraws & Hlenr & Hpos).
  exists raws. split_and!; [|done|].
  - unfold H5Dataset_getitem. rewrite Hfid, Hdk, Hraws. cbn [bind].
    assert (H5_transform self =
            initialize self (Chain [TransformFromFuncs_new; ToTensor])) as ->.
    { unfold H5Dataset_init in Hinit. rewrite Hkeys in Hinit. cbn [bind] in Hinit.
      destruct (match info_name with Some _ => _ | None => _ end);
        cbn [bind] in Hinit; [|done].
      injection Hinit as <-. done. }
    rewrite chain_truncates.
    + rewrite Hdk, take_ge by (rewrite length_map; lia).
      cbn [initialize call py_iter bind]. by rewrite for_each_from_numpy_arrays.
    + rewrite Hdk, Hattrs. apply Hnone.
  - intros pos key Hkey. destruct (Hpos pos key Hkey) as (d & raw & Hd & Hraw & Hin).
    apply list_elem_of_lookup_2 in Hkey.
    destruct (Hall key Hkey) as (rs & Hrs & _).
    assert (d = Rows rs) as -> by congruence.
    destruct (Hdims key rs raw Hkey Hrs) as [rr ->].
    { cbn [ndarray_getitem] in Hraw. by apply seq_getitem_elem in Hraw. }
    exists (Rows rs), (Rows rr), rr. by split_and!.
Qed.

Lemma yield_from_ok (vs : list value) : yield_from (map Ok vs) = (vs, None).
Proof. induction vs as [|v vs IH]; [done|]. cbn [map yield_from]. by rewrite IH. Qed.

Lemma yield_from_raise (vs : list value) (e : exn) (rest : list (result value)) :
  yield_from (map Ok vs ++ Raise e :: rest) = (vs, Some e).
Proof.
  induction vs as [|v vs IH]; [done|].
  cbn [map app yield_from]. by rewrite IH.
Qed.

Lemma range_lookup (m : Z) (i : nat) :
  (i < Z.to_nat m)%nat → range m !! i = Some (Z.of_nat i).
Proof.
  intros Hi. unfold range. rewrite list_lookup_fmap, lookup_seq_lt by done. done.
Qed.

Lemma items_in_range (self : H5Dataset) (k : Z) (items : list value) :
  length items = Z.to_nat k →
  (∀ (i : nat) v, items !! i = Some v → H5Dataset_getitem self (Z.of_nat i) = Ok v) →
  map (H5Dataset_getitem self) (range k) = map Ok items.
Proof.
  intros Hlen Hitems. apply list_eq. intros i.
  rewrite !list_lookup_fmap.
  destruct (items !! i) as [v|] eqn:Hv; cbn [fmap option_fmap option_map].
  - apply lookup_lt_Some in Hv as Hi.
    rewrite range_lookup by lia. cbn. f_equal. by apply Hitems.
  - apply lookup_ge_None in Hv. unfold range.
    rewrite list_lookup_fmap, lookup_seq_ge by lia. done.
Qed.

(** X12.  Iterating over the dataset yields the items at the indices 0
    to [len(dataset) - 1], in that order, and then ends: when each of
    these items exists, the generator yields exactly them. *)
Theorem H5Dataset_iter_items (self : H5Dataset) (m : Z) (items : list value) :
  H5Dataset_len self = Ok m →
  length items = Z.to_nat m →
  (∀ (i : nat) v, items !! i = Some v → H5Dataset_getitem self (Z.of_nat i) = Ok v) →
  H5Dataset_iter self = (items, None).
Proof.
  intros Hm Hlen Hitems. unfold H5Dataset_iter. rewrite Hm.
  by rewrite (items_in_range self m items), yield_from_ok.
Qed.

Lemma range_split (m k : Z) :
  0 <= k < m → ∃ rest, range m = range k ++ k :: rest.
Proof.
  intros Hk. unfold range.
  replace (Z.to_nat m) with (Z.to_nat k + S (Z.to_nat m - S (Z.to_nat k)))%nat by lia.
  rewrite seq_app, map_app. cbn [seq map Nat.add]. rewrite Z2Nat.id by lia. eauto.
Qed.

(** X13.  Iteration ends with the first item that raises: when the items
    at the indices below [k] exist and the item at [k] raises, the
    generator yields those items and then raises that exception; the
    indices after [k] are not reached. *)
Theorem H5Dataset_iter_stops (self : H5Dataset) (m k : Z) (items : list value)
    (e : exn) :
  H5Dataset_len self = Ok m →
  0 <= k < m →
  length items = Z.to_nat k →
  (∀ (i : nat) v, items !! i = Some v → H5Dataset_getitem self (Z.of_nat i) = Ok v) →
  H5Dataset_getitem self k = Raise e →
  H5Dataset_iter self = (items, Some e).
Proof.
  intros Hm Hk Hlen Hitems He. unfold H5Dataset_iter. rewrite Hm.
  destruct (range_split m k Hk) as [rest ->].
  rewrite map_app. cbn [map].
  by rewrite (items_in_range self k items), He, yield_from_raise.
Qed.

(** X14.  A dataset constructed without keys has no length: [len] raises
    [TypeError] and so does iteration, before anything is yielded; with
    the default transform its item at every index is the empty tuple. *)
Theorem H5Dataset_without_keys (fid : gmap string ndarray)
    (info_name : option string) (transform : option DataTransform)
    (attrs : gmap string (value → value)) (self : H5Dataset) (item : Z) :
  H5Dataset_init fid [] info_name transform attrs = Ok self →
  H5Dataset_len self = Raise TypeError ∧
  H5Dataset_iter self = ([], Some TypeError) ∧
  (transform = None → H5Dataset_getitem self item = Ok (VTuple [])).
Proof.
  intros Hinit.
  destruct (H5Dataset_init_inv _ _ _ _ _ _ Hinit)
    as (m & Hkeys & Hfid & Hlen & Hdk & Hattrs & _).
  injection Hkeys as <-.
  assert (H5Dataset_len self = Raise TypeError) as Hraise.
  { unfold H5Dataset_len. by rewrite Hlen. }
  split_and!; [done| |].
  - unfold H5Dataset_iter. by rewrite Hraise.
  - intros ->. unfold H5Dataset_getitem. rewrite Hdk. cbn [for_each bind].
    assert (H5_transform self =
            initialize self (Chain [TransformFromFuncs_new; ToTensor])) as ->.
    { unfold H5Dataset_init in Hinit. cbn [check_keys bind] in Hinit.
      destruct (match info_name with Some _ => _ | None => _ end);
        cbn [bind] in Hinit; [|done].
      injection Hinit as <-. done. }
    rewrite chain_truncates; [by rewrite Hdk|].
    rewrite Hdk. intros d Hd. by apply elem_of_nil in Hd.
Qed.

(** ** The in-memory datasets *)

Lemma seq_getitem_out_of_range {A} (xs : list A) (i : Z) :
  i < - Z.of_nat (length xs) ∨ Z.of_nat (length xs) <= i →
  seq_getitem xs i = Raise IndexError.
Proof.
  intros Hi. unfold seq_getitem.
  destruct (Z.ltb_spec i 0).
  - destruct (Z.leb_spec 0 (i + Z.of_nat (length xs))); [lia|done].
  - destruct (Z.ltb_spec i (Z.of_nat (length xs))); [lia|]. by rewrite andb_false_r.
Qed.

Lemma seq_getitem_negative {A} (xs : list A) (i : Z) :
  0 <= i < Z.of_nat (length xs) →
  seq_getitem xs (i - Z.of_nat (length xs)) = seq_getitem xs i.
Proof.
  intros Hi. unfold seq_getitem.
  destruct (Z.ltb_spec (i - Z.of_nat (length xs)) 0); [|lia].
  destruct (Z.ltb_spec i 0); [lia|].
  by replace (i - Z.of_nat (length xs) + Z.of_nat (length xs)) with i by lia.
Qed.

Lemma assert_same_length_all_agree {A} (len : A → result Z) (n : Z)
    (data all : list A) (first : A) :
  seq_getitem all 0 = Ok first → len first = Ok n →
  (∀ d, d ∈ data → len d = Ok n) →
  assert_same_length len data all = Ok tt.
Proof.
  intros Hfirst Hn. induction data as [|d data IH]; intros Hall; [done|].
  cbn [assert_same_length]. rewrite (Hall d) by left. cbn [bind].
  rewrite Hfirst. cbn [bind]. rewrite Hn. cbn [bind].
  rewrite Z.eqb_refl. cbn [assert bind]. apply IH. intros d' Hd'. apply Hall. by right.
Qed.

Lemma check_first_dim_all_agree (n : Z) (data : list ndarray) :
  (∀ d, d ∈ data → ∃ rs, d = Rows rs ∧ Z.of_nat (length rs) = n) →
  check_first_dim data = Ok tt.
Proof.
  intros Hall. unfold check_first_dim. destruct data as [|first data]; [done|].
  apply assert_same_length_all_agree with n first.
  - apply seq_getitem_0.
  - destruct (Hall first) as (rs & -> & <-); [left|].
    unfold shape0. cbn [shape]. apply seq_getitem_0.
  - intros d Hd. destruct (Hall d Hd) as (rs & -> & <-).
    unfold shape0. cbn [shape]. apply seq_getitem_0.
Qed.

(** X15.  The two array datasets are constructed from any fields that
    share their first dimension: [NumpyDataset] then keeps the arrays as
    they are, [MultiTensorDataset] holds for each array the CPU tensor
    of its [float32] cast, with the identity as transform when none is
    given, and reports the shared first dimension as its length. *)
Theorem array_datasets_constructed (n : Z) (data : list ndarray)
    (transform : option (value → result value)) :
  (∀ d, d ∈ data → ∃ rs, d = Rows rs ∧ Z.of_nat (length rs) = n) →
  NumpyDataset_init data = Ok {| NP_data := data |} ∧
  ∃ self,
    MultiTensorDataset_init to_float32 data transform = Ok self ∧
    MT_data self =
      map (λ d, VTensor (Tensor (astype_float32 to_float32 d) false)) data ∧
    MT_transform self = default (λ x, Ok x) transform ∧
    (data ≠ [] → MultiTensorDataset_len self = Ok n).
Proof.
  intros Hall. pose proof (check_first_dim_all_agree n data Hall) as Hchk.
  unfold NumpyDataset_init, MultiTensorDataset_init. rewrite Hchk. cbn [bind].
  split; [done|]. rewrite coerce_all. cbn [bind]. eexists.
  split_and!; [done|done|by destruct transform|].
  intros Hne. unfold MultiTensorDataset_len. cbn [MT_data].
  destruct data as [|first data]; [done|].
  destruct (Hall first) as (rs & -> & <-); [left|].
  cbn [map]. rewrite seq_getitem_0. cbn [bind size0 astype_float32].
  unfold tensor_size0. cbn [storage shape]. by rewrite seq_getitem_0, length_map.
Qed.

(** X16.  The two array datasets validate their fields alike: on every
    input the one constructor raises exactly when the other does, with
    the same exception. *)
Theorem array_datasets_validate_alike (data : list ndarray)
    (transform : option (value → result value)) (e : exn) :
  NumpyDataset_init data = Raise e ↔
  MultiTensorDataset_init to_float32 data transform = Raise e.
Proof.
  unfold NumpyDataset_init, MultiTensorDataset_init.
  destruct (check_first_dim data) as [[]|e']; cbn [bind];
    [|by split; intros [= ->]].
  rewrite coerce_all. cbn [bind]. split; discriminate.
Qed.

Lemma assert_same_length_prefix {A} (len : A → result Z) (n : Z)
    (pre rest all : list A) (first : A) :
  seq_getitem all 0 = Ok first → len first = Ok n →
  (∀ d, d ∈ pre → len d = Ok n) →
  assert_same_length len (pre ++ rest) all = assert_same_length len rest all.
Proof.
  intros Hfirst Hn. induction pre as [|d pre IH]; intros Hall; [done|].
  cbn [app assert_same_length]. rewrite (Hall d) by left. cbn [bind].
  rewrite Hfirst. cbn [bind]. rewrite Hn. cbn [bind].
  rewrite Z.eqb_refl. cbn [assert bind]. apply IH. intros d' Hd'. apply Hall. by right.
Qed.

(** X17.  A field without any dimension makes both array datasets fail
    with the [IndexError] of [d.shape[0]], not with the assertion: this
    holds wherever the field stands, as long as the fields before it
    share their first dimension. *)
Theorem zero_dimensional_field (n : Z) (pre : list ndarray) (x : scalar)
    (post : list ndarray) (transform : option (value → result value)) :
  (∀ d, d ∈ pre → ∃ rs, d = Rows rs ∧ Z.of_nat (length rs) = n) →
  NumpyDataset_init (pre ++ Item x :: post) = Raise IndexError ∧
  MultiTensorDataset_init to_float32 (pre ++ Item x :: post) transform =
    Raise IndexError.
Proof.
  intros Hall.
  assert (check_first_dim (pre ++ Item x :: post) = Raise IndexError) as Hchk.
  { unfold check_first_dim. destruct pre as [|first pre]; [done|].
    destruct (Hall first) as (rs0 & -> & Hrs0); [left|].
    rewrite (assert_same_length_prefix shape0 n (Rows rs0 :: pre) _ _ (Rows rs0)).
    - done.
    - apply seq_getitem_0.
    - unfold shape0. cbn [shape]. rewrite seq_getitem_0. by rewrite Hrs0.
    - intros d Hd. destruct (Hall d Hd) as (rs & -> & <-).
      unfold shape0. cbn [shape]. apply seq_getitem_0. }
  unfold NumpyDataset_init, MultiTensorDataset_init. by rewrite Hchk.
Qed.

Lemma MultiTensorDataset_data_inv (data : list ndarray)
    (transform : option (value → result value)) (self : MultiTensorDataset) :
  MultiTensorDataset_init to_float32 data transform = Ok self →
  self = {| MT_data := map (λ d, VTensor (Tensor (astype_float32 to_float32 d) false)) data;
            MT_transform := default (λ x, Ok x) transform |}.
Proof.
  intros Hinit.
  destruct (MultiTensorDataset_init_ok _ _ _ Hinit) as (Hdata & Htr & _).
  destruct self as [d t]. cbn [MT_data MT_transform] in *. by subst.
Qed.

Lemma for_each_cuda_tensors (ts : list (@tensor scalar)) :
  for_each cuda (map VTensor ts) = Ok (map (λ t, VTensor (tensor_cuda t)) ts).
Proof. induction ts as [|t ts IH]; [done|]. cbn [for_each map]. by rewrite IH. Qed.

Lemma for_each_cpu_tensors (ts : list (@tensor scalar)) :
  for_each cpu (map VTensor ts) = Ok (map (λ t, VTensor (tensor_cpu t)) ts).
Proof. induction ts as [|t ts IH]; [done|]. cbn [for_each map]. by rewrite IH. Qed.

(** X18.  On a constructed [MultiTensorDataset], [cuda_] succeeds and
    puts every field on the GPU, keeping the transform; [cpu_] then
    restores the dataset as it was constructed, and [cpu_] on the
    constructed dataset changes nothing. *)
Theorem cuda_cpu_round_trip (data : list ndarray)
    (transform : option (value → result value)) (self : MultiTensorDataset) :
  MultiTensorDataset_init to_float32 data transform = Ok self →
  (cuda_ self).1 = Ok tt ∧
  MT_data (cuda_ self).2 =
    map (λ d, VTensor (Tensor (astype_float32 to_float32 d) true)) data ∧
  MT_transform (cuda_ self).2 = MT_transform self ∧
  cpu_ (cuda_ self).2 = (Ok tt, self) ∧
  cpu_ self = (Ok tt, self).
Proof.
  intros Hinit. apply MultiTensorDataset_data_inv in Hinit as ->.
  unfold cuda_, cpu_. cbn [MT_data MT_transform].
  rewrite <- (map_map (λ d, Tensor (astype_float32 to_float32 d) false) VTensor).
  rewrite for_each_cuda_tensors, for_each_cpu_tensors.
  cbn [fst snd MT_data MT_transform]. rewrite !map_map. cbn [tensor_cuda tensor_cpu storage].
  split_and!; try done.
  rewrite <- (map_map (λ d, Tensor (astype_float32 to_float32 d) true) VTensor).
  rewrite for_each_cpu_tensors. by rewrite map_map.
Qed.

Lemma for_each_ext {A B} (f g : A → result B) (xs : list A) :
  (∀ x, x ∈ xs → f x = g x) → for_each f xs = for_each g xs.
Proof.
  induction xs as [|x xs IH]; intros Hfg; [done|].
  cbn [for_each]. rewrite (Hfg x) by left. rewrite IH; [done|].
  intros y Hy. apply Hfg. by right.
Qed.

Lemma for_each_map {A B C} (f : B → result C) (g : A → B) (xs : list A) :
  for_each f (map g xs) = for_each (λ x, f (g x)) xs.
Proof. induction xs as [|x xs IH]; [done|]. cbn [map for_each]. by rewrite IH. Qed.

Lemma for_each_bind_ok {A B C} (f : A → result B) (g : B → C) (xs : list A) :
  for_each (λ x, y <- f x ;; Ok (g y)) xs = (ys <- for_each f xs ;; Ok (map g ys)).
Proof.
  induction xs as [|x xs IH]; [done|]. cbn [for_each]. rewrite IH.
  destruct (f x); cbn [bind]; [|done]. by destruct (for_each f xs).
Qed.

(** The slices of the stored tensors at [index], for fields placed on
    the CPU ([c = false]) or on the GPU ([c = true]). *)
Lemma tensor_slices (data : list ndarray) (c : bool) (index : Z) :
  for_each (λ v, py_getitem v index)
           (map (λ d, VTensor (Tensor (astype_float32 to_float32 d) c)) data) =
    (rs <- for_each (λ d, ndarray_getitem (astype_float32 to_float32 d) index) data ;;
     Ok (map (λ r, VTensor (Tensor r c)) rs)).
Proof.
  rewrite for_each_map. cbn [py_getitem]. unfold tensor_getitem. cbn [storage is_cuda].
  rewrite <- (for_each_bind_ok
    (λ d, ndarray_getitem (astype_float32 to_float32 d) index)
    (λ r, VTensor (Tensor r c))).
  apply for_each_ext. intros d _.
  by destruct (ndarray_getitem (astype_float32 to_float32 d) index).
Qed.

(** X19.  Moving a dataset built without a transform to the GPU keeps its
    length, and its item at an index is the item before the move with
    every entry moved to the GPU; an index that raised before the move
    raises the same exception after it. *)
Theorem cuda_keeps_items (data : list ndarray) (self : MultiTensorDataset) (index : Z) :
  MultiTensorDataset_init to_float32 data None = Ok self →
  MultiTensorDataset_len (cuda_ self).2 = MultiTensorDataset_len self ∧
  (∀ items, MultiTensorDataset_getitem self index = Ok (VTuple items) →
     ∃ moved, for_each cuda items = Ok moved ∧
              MultiTensorDataset_getitem (cuda_ self).2 index = Ok (VTuple moved)) ∧
  (∀ e, MultiTensorDataset_getitem self index = Raise e →
        MultiTensorDataset_getitem (cuda_ self).2 index = Raise e).
Proof.
  intros Hinit. apply MultiTensorDataset_data_inv in Hinit as ->.
  unfold cuda_. cbn [MT_data MT_transform].
  rewrite <- (map_map (λ d, Tensor (astype_float32 to_float32 d) false) VTensor).
  rewrite for_each_cuda_tensors, !map_map. cbn [snd].
  unfold MultiTensorDataset_len, MultiTensorDataset_getitem, tensor_cuda.
  cbn [MT_data MT_transform default storage]. rewrite !tensor_slices. split_and!.
  - by destruct data.
  - intros items.
    destruct (for_each _ data) as [rs|]; cbn [bind]; [|done].
    intros [= <-]. eexists. split; [|done].
    rewrite <- (map_map (λ r, Tensor r false) VTensor), for_each_cuda_tensors.
    by rewrite map_map.
  - intros e. by destruct (for_each _ data).
Qed.

(** X20.  On a constructed [MultiTensorDataset] of length [n], an index
    below [-n] or from [n] on raises [IndexError] whatever the
    transform, and a negative index counts from the end: the item at
    [index - n] is the item at [index]. *)
Theorem MultiTensorDataset_index_range (data : list ndarray)
    (transform : option (value → result value)) (self : MultiTensorDataset)
    (n index : Z) :
  MultiTensorDataset_init to_float32 data transform = Ok self →
  MultiTensorDataset_len self = Ok n →
  (index < - n ∨ n <= index →
   MultiTensorDataset_getitem self index = Raise IndexError) ∧
  (0 <= index < n →
   MultiTensorDataset_getitem self (index - n) = MultiTensorDataset_getitem self index).
Proof.
  intros Hinit Hn.
  assert (∀ d, d ∈ data → ∃ rs, d = Rows rs ∧ Z.of_nat (length rs) = n) as Hall.
  { intros d Hd.
    destruct (MultiTensorDataset_len_ok _ _ _ _ Hinit Hd) as (rs & -> & Hn').
    exists rs. split; [done|]. congruence. }
  pose proof Hinit as Hself. apply MultiTensorDataset_data_inv in Hself.
  unfold MultiTensorDataset_getitem. rewrite Hself. cbn [MT_data MT_transform].
  rewrite !tensor_slices. split.
  - intros Hout. destruct data as [|d data].
    { unfold MultiTensorDataset_len in Hn. by rewrite Hself in Hn. }
    destruct (Hall d) as (rs & -> & Hrs); [left|].
    rewrite for_each_first_raises with (e := IndexError); [done|].
    cbn [astype_float32 ndarray_getitem]. apply seq_getitem_out_of_range.
    rewrite length_map. lia.
  - intros Hin. f_equal.
    rewrite (for_each_ext _ (λ d, ndarray_getitem (astype_float32 to_float32 d) index));
      [done|].
    intros d Hd. destruct (Hall d Hd) as (rs & -> & Hrs).
    cbn [astype_float32 ndarray_getitem].
    rewrite <- Hrs, <- (length_map (astype_float32 to_float32) rs).
    apply seq_getitem_negative. rewrite length_map. lia.
Qed.

Lemma NumpyDataset_init_inv (data : list ndarray) (self : NumpyDataset) :
  NumpyDataset_init data = Ok self →
  self = {| NP_data := data |} ∧
  ∀ d, d ∈ data →
    ∃ first n, seq_getitem data 0 = Ok first ∧ shape0 first = Ok n ∧ shape0 d = Ok n.
Proof.
  unfold NumpyDataset_init, check_first_dim. intros H.
  destruct (assert_same_length shape0 data data) as [[]|] eqn:Hchk;
    cbn [bind] in H; [|done].
  injection H as <-. split; [done|]. by apply assert_same_length_ok.
Qed.

(** X21.  A constructed [NumpyDataset] whose first field has [n] rows
    returns at an index from [-n] up to [n - 1] the tuple of the raw
    slices of its fields, one per field and unconverted; at any other
    index it raises [IndexError]. *)
Theorem NumpyDataset_getitem_items (data : list ndarray) (self : NumpyDataset)
    (first : ndarray) (n index : Z) :
  NumpyDataset_init data = Ok self →
  data !! 0%nat = Some first →
  shape0 first = Ok n →
  (- n <= index < n →
   ∃ raws,
     NumpyDataset_getitem self index = Ok (VTuple (map VArray raws)) ∧
     length raws = length data ∧
     ∀ (pos : nat) d, data !! pos = Some d →
       ∃ raw, ndarray_getitem d index = Ok raw ∧ raws !! pos = Some raw) ∧
  (index < - n ∨ n <= index → NumpyDataset_getitem self index = Raise IndexError).
Proof.
  intros Hinit Hfirst Hn.
  destruct (NumpyDataset_init_inv _ _ Hinit) as (-> & Hsame).
  assert (∀ d, d ∈ data → ∃ rs, d = Rows rs ∧ Z.of_nat (length rs) = n) as Hall.
  { intros d Hd. destruct (Hsame d Hd) as (first' & n' & Hf & Hn' & Hd').
    destruct data as [|d0 data]; [done|]. rewrite seq_getitem_0 in Hf.
    cbn in Hfirst. assert (n' = n) as -> by congruence.
    destruct (shape0_Rows _ _ Hd') as (rs & -> & ->). eauto. }
  unfold NumpyDataset_getitem. cbn [NP_data]. split.
  - intros Hin. clear Hfirst Hsame Hinit.
    assert (∃ raws,
      for_each (λ d, r <- ndarray_getitem d index ;; Ok (VArray r)) data =
        Ok (map VArray raws) ∧ length raws = length data ∧
      ∀ (pos : nat) d, data !! pos = Some d →
        ∃ raw, ndarray_getitem d index = Ok raw ∧ raws !! pos = Some raw)
      as (raws & -> & Hlen & Hpos); [|by exists raws].
    induction data as [|d data IH].
    + exists []. by split_and!.
    + destruct (Hall d) as (rs & -> & Hrs); [left|].
      destruct (seq_getitem_valid rs index) as [raw Hraw]; [lia|].
      destruct IH as (raws & Hraws & Hlen & Hpos).
      { intros d' Hd'. apply Hall. by right. }
      exists (raw :: raws). cbn [for_each ndarray_getitem]. rewrite Hraw.
      cbn [bind]. rewrite Hraws. cbn [bind map length].
      split_and!; [done|by rewrite Hlen|].
      intros [|pos] d'; cbn [lookup list_lookup]; [|by apply Hpos].
      intros [= <-]. by exists raw.
  - intros Hout. destruct data as [|d data]; [done|].
    destruct (Hall d) as (rs & -> & Hrs); [left|].
    rewrite for_each_first_raises with (e := IndexError); [done|].
    cbn [ndarray_getitem]. rewrite seq_getitem_out_of_range; [done|lia].
Qed.

(** ** The list dataset *)

Lemma check_len_lists (n : Z) (seqs : list (list value)) :
  (∀ xs, xs ∈ seqs → Z.of_nat (length xs) = n) →
  check_len (map VList seqs) = Ok tt.
Proof.
  intros Hall. unfold check_len. destruct seqs as [|xs0 seqs]; [done|].
  apply assert_same_length_all_agree with n (VList xs0).
  - apply seq_getitem_0.
  - cbn [py_len]. f_equal. apply Hall. by left.
  - intros d Hd. apply list_elem_of_fmap in Hd as (xs & -> & Hxs).
    cbn [py_len]. f_equal. by apply Hall.
Qed.

Lemma list_entries (n : Z) (seqs : list (list value)) (index : Z) :
  (∀ xs, xs ∈ seqs → Z.of_nat (length xs) = n) →
  - n <= index < n →
  ∃ entries,
    for_each (λ d, py_getitem d index) (map VList seqs) = Ok entries ∧
    length entries = length seqs ∧
    ∀ (pos : nat) xs, seqs !! pos = Some xs →
      ∃ x, seq_getitem xs index = Ok x ∧ entries !! pos = Some x.
Proof.
  intros Hall Hindex. induction seqs as [|xs seqs IH].
  - exists []. by split_and!.
  - destruct (seq_getitem_valid xs index) as [x Hx].
    { rewrite (Hall xs) by left. done. }
    destruct IH as (entries & Hentries & Hlen & Hpos).
    { intros xs' Hxs'. apply Hall. by right. }
    exists (x :: entries). cbn [map for_each py_getitem]. rewrite Hx. cbn [bind].
    rewrite Hentries. cbn [bind length]. split_and!; [done|by rewrite Hlen|].
    intros [|pos] xs'; cbn [lookup list_lookup]; [|by apply Hpos].
    intros [= <-]. by exists x.
Qed.

Lemma ListDataset_getitem_entries (self : ListDataset) (index : Z)
    (entries : list value) :
  for_each (λ d, py_getitem d index) (LD_data self) = Ok entries →
  ListDataset_getitem self index =
    match LD_transform self with
    | Some f => f (VTuple entries)
    | None => Ok (VTuple entries)
    end.
Proof. intros H. unfold ListDataset_getitem. rewrite H. by destruct (LD_transform self). Qed.

(** X22.  A [ListDataset] is constructed from any lists of one common
    length [n]; at an index from [-n] up to [n - 1] its item is the
    tuple of the lists' entries at that index, in the order of the
    lists, handed to the transform when there is one. *)
Theorem ListDataset_getitem_items (n : Z) (seqs : list (list value))
    (transform : option (value → result value)) (index : Z) :
  (∀ xs, xs ∈ seqs → Z.of_nat (length xs) = n) →
  ∃ self,
    ListDataset_init (map VList seqs) transform = Ok self ∧
    (- n <= index < n →
     ∃ entries,
       length entries = length seqs ∧
       (∀ (pos : nat) xs, seqs !! pos = Some xs →
          ∃ x, seq_getitem xs index = Ok x ∧ entries !! pos = Some x) ∧
       ListDataset_getitem self index =
         match transform with
         | Some f => f (VTuple entries)
         | None => Ok (VTuple entries)
         end).
Proof.
  intros Hall. unfold ListDataset_init. rewrite (check_len_lists n seqs Hall).
  cbn [bind]. eexists. split; [done|]. intros Hindex.
  destruct (list_entries n seqs index Hall Hindex) as (entries & Hentries & Hlen & Hpos).
  exists entries. split_and!; [done..|].
  by rewrite (ListDataset_getitem_entries _ index entries).
Qed.

(** X23.  For a [ListDataset] over [k] lists of common length [n], with
    [k] at least 1, the index [len(dataset)] is [k]: the item at that
    index raises [IndexError] exactly when the lists are not longer than
    their number, and is an ordinary item otherwise. *)
Theorem ListDataset_item_at_length (n : Z) (seqs : list (list value))
    (transform : option (value → result value)) (self : ListDataset) :
  (∀ xs, xs ∈ seqs → Z.of_nat (length xs) = n) →
  seqs ≠ [] →
  ListDataset_init (map VList seqs) transform = Ok self →
  ListDataset_len self = Ok (Z.of_nat (length seqs)) ∧
  (n <= Z.of_nat (length seqs) →
   ListDataset_getitem self (Z.of_nat (length seqs)) = Raise IndexError) ∧
  (Z.of_nat (length seqs) < n →
   ∃ entries,
     length entries = length seqs ∧
     ListDataset_getitem self (Z.of_nat (length seqs)) =
       match transform with
       | Some f => f (VTuple entries)
       | None => Ok (VTuple entries)
       end).
Proof.
  intros Hall Hne. unfold ListDataset_init. rewrite (check_len_lists n seqs Hall).
  cbn [bind]. intros [= <-]. split_and!.
  - unfold ListDataset_len. cbn [LD_data]. by rewrite length_map.
  - intros Hshort. destruct seqs as [|xs seqs]; [done|].
    unfold ListDataset_getitem. cbn [LD_data LD_transform map].
    rewrite for_each_first_raises with (e := IndexError); [by destruct transform|].
    cbn [py_getitem]. apply seq_getitem_out_of_range.
    rewrite (Hall xs) by left. lia.
  - intros Hlong.
    destruct (list_entries n seqs (Z.of_nat (length seqs)) Hall)
      as (entries & Hentries & Hlen & _); [lia|].
    exists entries. split; [done|].
    by rewrite (ListDataset_getitem_entries _ _ entries).
Qed.

(** ** The conversion helper, further *)

(** X24.  [to_variable] yields at most one tuple per element of its
    input, and exactly one per element precisely when it ends without an
    exception. *)
Theorem to_variable_yields_per_element (iter : list value) (cuda_flag : bool)
    (filter : option (list bool)) (kw : kwargs) :
  (length (to_variable iter cuda_flag filter kw).1 ≤ length iter)%nat ∧
  ((to_variable iter cuda_flag filter kw).2 = None ↔
   length (to_variable iter cuda_flag filter kw).1 = length iter).
Proof.
  revert filter. induction iter as [|elem rest IH]; intros filter; [done|].
  cbn [to_variable].
  destruct (to_variable_round cuda_flag kw filter elem) as [[out filter']|e].
  - destruct (IH filter') as [Hle Hiff]. cbn [fst snd length]. split; [lia|].
    rewrite Hiff. split; lia.
  - cbn [fst snd length]. split; [lia|]. split; [done|lia].
Qed.

(** X25.  With a filter supplied, the generator works element by
    element: on an input in two parts it yields what it yields on the
    first part and, if that part ended without an exception, goes on
    with what it yields on the second; an exception in the first part
    ends it there. *)
Theorem to_variable_app (xs ys : list value) (cuda_flag : bool)
    (mask : list bool) (kw : kwargs) :
  to_variable (xs ++ ys) cuda_flag (Some mask) kw =
    match (to_variable xs cuda_flag (Some mask) kw).2 with
    | None =>
        ((to_variable xs cuda_flag (Some mask) kw).1 ++
         (to_variable ys cuda_flag (Some mask) kw).1,
         (to_variable ys cuda_flag (Some mask) kw).2)
    | Some e => to_variable xs cuda_flag (Some mask) kw
    end.
Proof.
  induction xs as [|elem xs IH].
  - cbn [app to_variable fst snd]. by destruct (to_variable ys _ _ _).
  - cbn [app to_variable].
    destruct (to_variable_round cuda_flag kw (Some mask) elem)
      as [[out filter']|e] eqn:Hround; [|done].
    apply to_variable_round_keeps_filter in Hround as ->.
    rewrite IH. cbn [fst snd].
    by destruct (to_variable xs cuda_flag (Some mask) kw) as [outs [e|]].
Qed.

Lemma zip_all_false (mask : list bool) (es : list value) :
  Forall (λ f, f = false) mask →
  ∀ g : bool * value → result value,
    (∀ e, g (false, e) = Ok e) →
    for_each g (zip mask es) = Ok (take (length mask) es).
Proof.
  intros Hmask g Hg. revert es.
  induction Hmask as [|f mask -> _ IH]; intros es; [done|].
  destruct es as [|e es]; [done|].
  cbn [zip_with for_each length take]. rewrite Hg, IH. done.
Qed.

(** X26.  Entries whose filter is [False] are neither wrapped nor moved:
    with a filter of [False] only, every iterable element is yielded as
    the tuple of its entries, cut to the length of the filter, whether
    [cuda] is set or not, and [cuda()] is called on nothing. *)
Theorem to_variable_filter_all_false (cuda_flag : bool) (kw : kwargs)
    (mask : list bool) (elem : value) (es : list value) :
  Forall (λ f, f = false) mask →
  py_iter elem = Ok es →
  to_variable_round cuda_flag kw (Some mask) elem =
    Ok (VTuple (take (length mask) es), Some mask).
Proof.
  intros Hmask Hes. unfold to_variable_round. cbn [bind]. rewrite Hes. cbn [bind].
  destruct cuda_flag; by rewrite (zip_all_false mask es Hmask).
Qed.

Lemma cuda_wrap_tensors (kw : kwargs) (mask : list bool) (ts : list (@tensor scalar)) :
  for_each (λ fe : bool * value,
              if fe.1 then e' <- cuda fe.2 ;; Variable_call e' kw else Ok fe.2)
           (zip mask (map VTensor ts)) =
    Ok (zip_with (λ (f : bool) t,
                    if f then Variable_ (VTensor (tensor_cuda t)) kw else VTensor t)
                 mask ts).
Proof.
  revert ts. induction mask as [|f mask IH]; intros ts; [done|].
  destruct ts as [|t ts]; [done|].
  cbn [map zip_with for_each fst snd]. rewrite IH. by destruct f.
Qed.

(** X27.  With [cuda=True], a tuple of tensors is yielded with every
    selected tensor first moved to the GPU and then wrapped by
    [Variable] with the keyword arguments, and every other tensor left
    where it is. *)
Theorem to_variable_cuda_tensors (kw : kwargs) (mask : list bool)
    (ts : list (@tensor scalar)) :
  to_variable_round true kw (Some mask) (VTuple (map VTensor ts)) =
    Ok (VTuple (zip_with (λ (f : bool) t,
                            if f then Variable_ (VTensor (tensor_cuda t)) kw
                            else VTensor t)
                         mask ts),
        Some mask).
Proof.
  unfold to_variable_round. cbn [bind py_iter]. by rewrite cuda_wrap_tensors.
Qed.

Lemma cuda_is_tensor (x v : value) : cuda x = Ok v → is_tensor v = true.
Proof.
  destruct x; cbn [cuda]; try done.
  - by intros [= <-].
  - destruct (cuda x); cbn [bind]; [|done]. by intros [= <-].
Qed.

(** X28.  With [cuda=True], a selected entry that has no [cuda] method
    (a number, an array, a tuple) makes the round raise
    [AttributeError]; the generator ends there, having yielded the
    tuples of the elements before. *)
Theorem to_variable_cuda_without_method (kw : kwargs) (mask : list bool)
    (elem : value) (es : list value) (pos : nat) (v : value) (e : exn)
    (before after : list value) :
  py_iter elem = Ok es →
  mask !! pos = Some true →
  es !! pos = Some v →
  cuda v = Raise e →
  to_variable_round true kw (Some mask) elem = Raise (AttributeError "cuda") ∧
  ((to_variable before true (Some mask) kw).2 = None →
   to_variable (before ++ elem :: after) true (Some mask) kw =
     ((to_variable before true (Some mask) kw).1, Some (AttributeError "cuda"))).
Proof.
  intros Hes Hmask Hv Hcuda.
  assert (to_variable_round true kw (Some mask) elem = Raise (AttributeError "cuda"))
    as Hround.
  { unfold to_variable_round. cbn [bind]. rewrite Hes. cbn [bind].
    rewrite (for_each_raises_at _ (zip mask es) (true, v) (AttributeError "cuda")); [done| | |].
    - apply list_elem_of_lookup. exists pos. by rewrite lookup_zip_with, Hmask, Hv.
    - cbn [fst snd]. rewrite Hcuda. cbn [bind]. f_equal. by apply cuda_raises in Hcuda.
    - intros [f x] e'. cbn [fst snd]. destruct f; [|done].
      destruct (cuda x) as [moved|] eqn:Hx; cbn [bind].
      + unfold Variable_call. by rewrite (cuda_is_tensor x moved Hx).
      + intros [= <-]. by apply cuda_raises in Hx. }
  split; [done|]. intros Hbefore.
  induction before as [|b before IH].
  - cbn [app to_variable]. by rewrite Hround.
  - cbn [app to_variable] in *.
    destruct (to_variable_round true kw (Some mask) b) as [[out filter']|e'] eqn:Hb;
      [|done].
    apply to_variable_round_keeps_filter in Hb as ->.
    cbn [fst snd] in *. by rewrite IH.
Qed.

(** X29.  An element that is neither a tuple nor a list, seen first
    without a filter, fixes the filter to [(True,)]: at most its first
    entry is yielded, and so is at most the first entry of every later
    element. *)
Theorem to_variable_bare_element (cuda_flag : bool) (kw : kwargs)
    (elem later out : value) (filter' : option (list bool)) :
  is_tuple_or_list elem = false →
  to_variable_round cuda_flag kw None elem = Ok (out, filter') →
  filter' = Some [true] ∧
  (∃ entries, out = VTuple entries ∧ (length entries ≤ 1)%nat) ∧
  (∀ out' filter'',
     to_variable_round cuda_flag kw filter' later = Ok (out', filter'') →
     ∃ entries, out' = VTuple entries ∧ (length entries ≤ 1)%nat).
Proof.
  intros Hbare.
  assert (∀ (x out : value) f', to_variable_round cuda_flag kw (Some [true]) x = Ok (out, f') →
            f' = Some [true] ∧ ∃ entries, out = VTuple entries ∧ (length entries ≤ 1)%nat)
    as Hone.
  { intros x o f'. unfold to_variable_round. cbn [bind].
    destruct (py_iter x) as [es|]; cbn [bind]; [|done].
    destruct cuda_flag.
    - destruct (for_each _ _) as [entries|] eqn:Hentries; cbn [bind]; [|done].
      intros [= <- <-]. split; [done|]. exists entries. split; [done|].
      destruct es as [|e0 es]; cbn [zip_with for_each fst snd] in Hentries.
      + injection Hentries as <-. cbn. lia.
      + destruct (cuda e0); cbn [bind] in Hentries; [|done].
        destruct (Variable_call _ kw); cbn [bind] in Hentries; [|done].
        injection Hentries as <-. cbn. lia.
    - destruct (for_each _ _) as [entries|] eqn:Hentries; cbn [bind]; [|done].
      intros [= <- <-]. split; [done|]. exists entries. split; [done|].
      destruct es as [|e0 es]; cbn [zip_with for_each fst snd] in Hentries.
      + injection Hentries as <-. cbn. lia.
      + destruct (Variable_call e0 kw); cbn [bind] in Hentries; [|done].
        injection Hentries as <-. cbn. lia. }
  intros Hround.
  assert (to_variable_round cuda_flag kw None elem =
          to_variable_round cuda_flag kw (Some [true]) elem) as Heq.
  { unfold to_variable_round, infer_filter. by rewrite Hbare. }
  rewrite Heq in Hround. destruct (Hone _ _ _ Hround) as [-> Hout].
  split_and!; [done|done|].
  intros out' filter'' Hlater. by destruct (Hone _ _ _ Hlater).
Qed.

End Properties.

(** * The properties on concrete datasets *)

(** Case analysis on a membership [x ∈ [a; b; ...]] in a concrete list *)
Ltac each_member H :=
  apply list_elem_of_In in H; simpl in H;
  repeat (destruct H as [<-|H]); [..|destruct H].

Example images_dataset_constructed :
  H5Dataset_init matched_file ["images"; "responses"] None
                 (Some TransformFromFuncs_new) images_attrs = Ok images_dataset.
Proof. reflexivity. Qed.

Example plain_dataset_constructed :
  H5Dataset_init matched_file ["images"] None None ∅ = Ok plain_dataset.
Proof. reflexivity. Qed.

Example images_dataset_item :
  H5Dataset_getitem images_dataset 1 =
    Ok (VTuple [VList [VArray (Item (int64, 11))]; VArray (Item (int64, 21))]).
Proof. reflexivity. Qed.

Example images_dataset_last_item :
  H5Dataset_getitem images_dataset (-1) = H5Dataset_getitem images_dataset 1.
Proof. reflexivity. Qed.

Example list_dataset_item :
  (self <- ListDataset_init (scalar := number)
             [VList [VInt 1; VInt 2; VInt 3]; VList [VInt 9; VInt 8; VInt 7]] None ;;
   ListDataset_getitem self 1) = Ok (VTuple [VInt 2; VInt 8]).
Proof. reflexivity. Qed.

Example cuda_moves_fields :
  (self <- MultiTensorDataset_init number_to_float32 [ints [1; 2]] None ;;
   Ok (MT_data (cuda_ self).2)) =
    Ok [VTensor (Tensor (floats [1; 2]) true)].
Proof. reflexivity. Qed.

Lemma mismatched_lengths_rejected_witness :
  H5Dataset_init mismatched_file ["images"; "responses"] None None ∅ =
    Raise (AssertionError "Length of datasets do not match") ∧
  (H5Dataset_init mismatched_file ["images"; "labels"] None None ∅ =
     Raise (AssertionError "Could not find labels in file") ∧
   contains "labels" "Could not find labels in file" = true) ∧
  MultiTensorDataset_init number_to_float32 [ints [1]; ints [2; 3]] None =
    Raise (AssertionError "datasets must have same first dimension") ∧
  NumpyDataset_init [ints [1]; ints [2; 3]] =
    Raise (AssertionError "datasets must have same first dimension") ∧
  ListDataset_init (scalar := number)
                   [VList [VInt 1]; VList [VInt 2; VInt 3]] None =
    Raise (AssertionError "datasets must have same first dimension").
Proof.
  destruct (mismatched_lengths_rejected (scalar := number) number_to_float32)
    as (Hh5 & Hkey & Hmt & Hnp & Hld).
  split; [|split; [|split; [|split]]].
  - apply Hh5.
    + intros k Hk. each_member Hk; eexists _, _; split; reflexivity.
    + exists "images", "responses", (ints [10]), (ints [20; 21]).
      split_and!; [by left|by right; left|reflexivity|reflexivity|discriminate].
  - destruct (Hkey mismatched_file 1 ["images"] "labels" [] None None ∅)
      as [Hraise Hnames]; [| reflexivity | split; [exact Hraise | exact Hnames]].
    intros k Hk. each_member Hk. eexists; split; reflexivity.
  - apply Hmt.
    + intros d Hd. each_member Hd; eexists; reflexivity.
    + exists (ints [1]), (ints [2; 3]).
      split_and!; [by left|by right; left|discriminate].
  - apply Hnp.
    + intros d Hd. each_member Hd; eexists; reflexivity.
    + exists (ints [1]), (ints [2; 3]).
      split_and!; [by left|by right; left|discriminate].
  - apply Hld.
    + intros d Hd. each_member Hd; eexists; reflexivity.
    + exists (VList [VInt 1]), (VList [VInt 2; VInt 3]).
      split_and!; [by left|by right; left|discriminate].
Defined.

(** C1 as stated fails: the dataset [responses] is the one whose length
    differs, and the message of the error does not contain its key (nor
    the other one). *)
Lemma length_mismatch_message_omits_key :
  mismatched_file !! "images" = Some (ints [10]) ∧
  mismatched_file !! "responses" = Some (ints [20; 21]) ∧
  H5Dataset_init mismatched_file ["images"; "responses"] None None ∅ =
    Raise (AssertionError "Length of datasets do not match") ∧
  contains "responses" "Length of datasets do not match" = false ∧
  contains "images" "Length of datasets do not match" = false.
Proof. split_and!; reflexivity. Qed.

Lemma transform_from_funcs_item_witness :
  H5Dataset_init matched_file ["images"; "responses"] None
                 (Some TransformFromFuncs_new) images_attrs = Ok images_dataset ∧
  (∀ m, H5_len images_dataset = Some m → - m <= 1 < m) ∧
  ∃ items,
    H5Dataset_getitem images_dataset 1 = Ok (VTuple items) ∧
    length items = 2%nat ∧
    ∀ pos key, ["images"; "responses"] !! pos = Some key →
      ∃ d raw, matched_file !! key = Some d ∧ ndarray_getitem d 1 = Ok raw ∧
        (∀ f, images_attrs !! (key +:+ "_transform") = Some f →
              items !! pos = Some (f (VArray raw))) ∧
        (images_attrs !! (key +:+ "_transform") = None →
              items !! pos = Some (VArray raw)).
Proof.
  assert (H5Dataset_init matched_file ["images"; "responses"] None
            (Some TransformFromFuncs_new) images_attrs = Ok images_dataset)
    as Hinit by reflexivity.
  assert (∀ m, H5_len images_dataset = Some m → - m <= 1 < m) as Hindex.
  { intros m Hm. injection Hm as <-. split; [discriminate|reflexivity]. }
  split; [exact Hinit|]. split; [exact Hindex|].
  exact (transform_from_funcs_item matched_file ["images"; "responses"] None
           images_attrs images_dataset 1 Hinit Hindex).
Defined.

Lemma chain_equals_to_tensor_witness :
  (∀ d, d ∈ H5_data_keys plain_dataset →
        H5_attrs plain_dataset !! (d +:+ "_transform") = None) ∧
  (length one_entry ≤ length (H5_data_keys plain_dataset))%nat ∧
  call (initialize plain_dataset (Chain [TransformFromFuncs_new; ToTensor]))
       (VTuple one_entry) =
    call (initialize plain_dataset ToTensor) (VTuple one_entry).
Proof.
  assert (∀ d, d ∈ H5_data_keys plain_dataset →
               H5_attrs plain_dataset !! (d +:+ "_transform") = None) as Hnone.
  { intros d _. reflexivity. }
  assert (length one_entry ≤ length (H5_data_keys plain_dataset))%nat
    as Hlen.
  { apply le_n. }
  split; [exact Hnone|]. split; [exact Hlen|].
  exact (chain_equals_to_tensor plain_dataset one_entry Hnone Hlen).
Defined.

(** C3 as stated fails on a tuple with more entries than the dataset has
    keys: the chain drops the second entry, [ToTensor] alone converts it. *)
Lemma chain_drops_extra_entries :
  (∀ d, d ∈ H5_data_keys plain_dataset →
        H5_attrs plain_dataset !! (d +:+ "_transform") = None) ∧
  call (initialize plain_dataset (Chain [TransformFromFuncs_new; ToTensor]))
       (VTuple two_entries) =
    Ok (VTuple [VTensor (Tensor (ints [1; 2]) false)]) ∧
  call (initialize plain_dataset ToTensor)
       (VTuple two_entries) =
    Ok (VTuple [VTensor (Tensor (ints [1; 2]) false);
                VTensor (Tensor (ints [3; 4]) false)]) ∧
  call (initialize plain_dataset (Chain [TransformFromFuncs_new; ToTensor]))
       (VTuple two_entries) ≠
    call (initialize plain_dataset ToTensor)
         (VTuple two_entries).
Proof.
  split_and!; [by intros d _|reflexivity|reflexivity|].
  intros H. vm_compute in H. discriminate H.
Qed.

Lemma coerced_item_witness :
  MultiTensorDataset_init number_to_float32 [ints [1; 2]; ints [3; 4]] None =
    Ok two_fields ∧
  (∀ n, MultiTensorDataset_len two_fields = Ok n → 0 <= 1 < n) ∧
  ∃ items,
    MultiTensorDataset_getitem two_fields 1 = Ok (VTuple items) ∧
    length items = 2%nat ∧
    ∀ pos d, [ints [1; 2]; ints [3; 4]] !! pos = Some d →
      ∃ raw v, ndarray_getitem d 1 = Ok raw ∧
               from_numpy (VArray (astype_float32 number_to_float32 raw)) = Ok v ∧
               items !! pos = Some v.
Proof.
  assert (MultiTensorDataset_init number_to_float32 [ints [1; 2]; ints [3; 4]] None =
            Ok two_fields) as Hinit by reflexivity.
  assert (∀ n, MultiTensorDataset_len two_fields = Ok n → 0 <= 1 < n) as Hindex.
  { intros n Hn. injection Hn as <-. split; [discriminate|reflexivity]. }
  split; [exact Hinit|]. split; [exact Hindex|].
  exact (coerced_item number_to_float32 [ints [1; 2]; ints [3; 4]] two_fields 1
           Hinit Hindex).
Defined.

Example two_fields_item :
  MultiTensorDataset_getitem two_fields 1 =
    Ok (VTuple [VTensor (Tensor (Item (float32, 2)) false);
                VTensor (Tensor (Item (float32, 4)) false)]).
Proof. reflexivity. Qed.

(** C5 fails on the code.  [ListDataset([1, 2, 3], [9, 8, 7])] reports
    the length 2, the number of its sequences, and the item at index 2
    exists; a [NumpyDataset] reports no length at all, its [len] raises
    [TypeError]. *)
Theorem item_at_length_of_list_dataset :
  (∃ self,
     ListDataset_init (scalar := number)
       [VList [VInt 1; VInt 2; VInt 3]; VList [VInt 9; VInt 8; VInt 7]] None = Ok self ∧
     ListDataset_len self = Ok 2 ∧
     ListDataset_getitem self 2 = Ok (VTuple [VInt 3; VInt 7])) ∧
  (∃ self,
     NumpyDataset_init [ints [1; 2]; ints [3; 4]] = Ok self ∧
     NumpyDataset_len self = Raise TypeError).
Proof. split; eexists; split_and!; reflexivity. Qed.

(** C6 as stated fails: on the numbers of the claim the call
    [Variable(1)] of the first round raises [TypeError], and nothing is
    yielded. *)
Lemma to_variable_on_numbers_raises :
  to_variable (scalar := number)
    [VTuple [VInt 1; VInt 2]; VTuple [VInt 3; VInt 4]] false (Some [true; false]) [] =
    ([], Some TypeError).
Proof. reflexivity. Qed.

(** C7 as stated fails: after the filter [(True, True)] has been inferred
    from a pair of tensors, a tuple of one tensor and a tuple of three
    are processed without an exception, and the generator ends
    normally. *)
Lemma different_arity_is_truncated :
  infer_filter (VTuple [one_entry_tensor 1; one_entry_tensor 2]) = Ok [true; true] ∧
  to_variable
    [VTuple [one_entry_tensor 1; one_entry_tensor 2];
     VTuple [one_entry_tensor 3];
     VTuple [one_entry_tensor 4; one_entry_tensor 5; one_entry_tensor 6]]
    false None [] =
    ([VTuple [VVariable (one_entry_tensor 1) []; VVariable (one_entry_tensor 2) []];
      VTuple [VVariable (one_entry_tensor 3) []];
      VTuple [VVariable (one_entry_tensor 4) []; VVariable (one_entry_tensor 5) []]],
     None) ∧
  to_variable_round false [] (Some [true; true]) (VTuple [one_entry_tensor 3]) ≠
    Raise IndexError.
Proof. split_and!; [reflexivity|reflexivity|discriminate]. Qed.

Lemma filter_inferred_once_witness :
  infer_filter (VTuple [one_entry_tensor 1; one_entry_tensor 2]) = Ok [true; true] ∧
  to_variable [VTuple [one_entry_tensor 1; one_entry_tensor 2];
               VTuple [one_entry_tensor 3]] false None [] =
    to_variable [VTuple [one_entry_tensor 1; one_entry_tensor 2];
                 VTuple [one_entry_tensor 3]] false (Some [true; true]) [] ∧
  Forall (λ e, is_tensor e = true) [one_entry_tensor 3] ∧
  (∃ out, to_variable_round false [] (Some [true; true])
                            (VTuple [one_entry_tensor 3]) =
            Ok (VTuple out, Some [true; true]) ∧
          length out = 1%nat).
Proof.
  destruct (filter_inferred_once
              (VTuple [one_entry_tensor 1; one_entry_tensor 2])
              [VTuple [one_entry_tensor 3]] false [])
    as (mask & Hmask & Hall & Heq & _ & Htrunc & _).
  assert (mask = [true; true]) as -> by (apply (Hall 2); reflexivity).
  assert (Forall (λ e, is_tensor e = true) [one_entry_tensor 3]) as Htensors
    by (repeat constructor).
  split; [exact Hmask|]. split; [exact Heq|]. split; [exact Htensors|].
  exact (Htrunc (VTuple [one_entry_tensor 3]) [one_entry_tensor 3] eq_refl Htensors).
Defined.

Lemma numpy_len_raises_witness :
  NumpyDataset_init [ints [1; 2]; ints [3; 4]] =
    Ok {| NP_data := [ints [1; 2]; ints [3; 4]] |} ∧
  ∃ e, NumpyDataset_len {| NP_data := [ints [1; 2]; ints [3; 4]] |} = Raise e ∧
       ([ints [1; 2]; ints [3; 4]] ≠ [] → e = TypeError).
Proof.
  assert (NumpyDataset_init [ints [1; 2]; ints [3; 4]] =
            Ok {| NP_data := [ints [1; 2]; ints [3; 4]] |}) as Hinit by reflexivity.
  split; [exact Hinit|].
  exact (numpy_len_raises _ _ Hinit).
Defined.

Lemma initialize_twice_witness :
  customized images_dataset ≠ [] ∧
  initialize images_dataset (initialize images_dataset TransformFromFuncs_new) ≠
    initialize images_dataset TransformFromFuncs_new ∧
  repr (initialize images_dataset (initialize images_dataset TransformFromFuncs_new)) =
    "TransformFromFuncs(images, images)" ∧
  repr (initialize images_dataset TransformFromFuncs_new) = "TransformFromFuncs(images)".
Proof.
  destruct (initialize_twice images_dataset [] None)
    as (_ & _ & _ & Hrepr & Hneq).
  assert (customized images_dataset ≠ []) as Hc by discriminate.
  split; [exact Hc|]. split; [exact (Hneq Hc)|]. split; [exact Hrepr|reflexivity].
Defined.

(** * The further properties on concrete datasets *)

Lemma to_tensor_arrays_only_witness :
  VInt 3 ∈ [VArray (ints [1]); VInt 3] ∧
  (∀ a, VInt (scalar := number) 3 ≠ VArray a) ∧
  call ToTensor (VTuple [VArray (ints [1]); VInt 3]) = Raise TypeError.
Proof.
  assert (VInt 3 ∈ [VArray (ints [1]); VInt 3]) as Hin by (by right; left).
  assert (∀ a, VInt (scalar := number) 3 ≠ VArray a) as Hnot by (intros a; discriminate).
  split; [exact Hin|]. split; [exact Hnot|].
  exact (proj2 (to_tensor_arrays_only [] [VArray (ints [1]); VInt 3] (VInt 3)) Hin Hnot).
Defined.

Lemma transform_from_funcs_arity_witness :
  py_iter (VTuple two_entries) = Ok two_entries ∧
  ∃ out,
    call (initialize images_dataset (TransformFromFuncs [] None)) (VTuple two_entries) =
      Ok (VTuple out) ∧
    length out = 2%nat.
Proof.
  split; [reflexivity|].
  destruct (proj1 (transform_from_funcs_arity images_dataset [] None (VTuple two_entries))
              two_entries eq_refl) as (out & Hcall & Hlen & _).
  exists out. split; [exact Hcall|exact Hlen].
Defined.

Lemma initialized_raises_only_TypeError_witness :
  call (initialize plain_dataset (Chain [TransformFromFuncs_new; ToTensor])) (VInt 3) =
    Raise TypeError ∧
  TypeError = TypeError.
Proof.
  assert (call (initialize plain_dataset (Chain [TransformFromFuncs_new; ToTensor]))
               (VInt 3) = Raise TypeError) as Hraise by reflexivity.
  split; [exact Hraise|].
  exact (initialized_raises_only_TypeError _ _ _ _ Hraise).
Defined.

Lemma repr_names_customized_witness :
  "images" ∈ H5_data_keys images_dataset ∧
  is_Some (H5_attrs images_dataset !! ("images" +:+ "_transform")) ∧
  contains "images" (repr (initialize images_dataset TransformFromFuncs_new)) = true.
Proof.
  assert ("images" ∈ H5_data_keys images_dataset) as Hin by (by left).
  assert (is_Some (H5_attrs images_dataset !! ("images" +:+ "_transform"))) as Hattr
    by (eexists; reflexivity).
  split; [exact Hin|]. split; [exact Hattr|].
  exact (repr_names_customized images_dataset [] None "images" Hin Hattr).
Defined.

Lemma H5Dataset_init_invariant_witness :
  H5Dataset_init matched_file ["images"; "responses"] None
                 (Some TransformFromFuncs_new) images_attrs = Ok images_dataset ∧
  ∃ rs, matched_file !! "responses" = Some (Rows rs) ∧
        H5_len images_dataset = Some (Z.of_nat (length rs)).
Proof.
  assert (H5Dataset_init matched_file ["images"; "responses"] None
            (Some TransformFromFuncs_new) images_attrs = Ok images_dataset)
    as Hinit by reflexivity.
  split; [exact Hinit|].
  destruct (H5Dataset_init_invariant _ _ _ _ _ _ Hinit) as (_ & _ & _ & _ & Hall & _).
  apply Hall. by right; left.
Defined.

Lemma matched_file_rows (k : string) :
  k ∈ ["images"; "responses"] →
  ∃ rs, matched_file !! k = Some (Rows rs) ∧ Z.of_nat (length rs) = 2.
Proof. intros Hk. each_member Hk; eexists; split; reflexivity. Defined.

Lemma H5Dataset_init_succeeds_witness :
  ∃ self, H5Dataset_init matched_file ["images"; "responses"] (Some "images") None ∅ =
            Ok self ∧
          H5_len self = Some 2.
Proof.
  destruct (H5Dataset_init_succeeds matched_file 2 ["images"; "responses"]
              (Some "images") None ∅ matched_file_rows) as (self & Hinit & Hlen).
  { intros name [= <-]. eexists. reflexivity. }
  exists self. split; [exact Hinit|]. apply Hlen. discriminate.
Defined.

Lemma H5Dataset_info_missing_witness :
  matched_file !! "info" = None ∧
  H5Dataset_init matched_file ["images"; "responses"] (Some "info") None ∅ =
    Raise (KeyError "info").
Proof.
  split; [reflexivity|].
  exact (H5Dataset_info_missing matched_file 2 ["images"; "responses"] "info" None ∅
           matched_file_rows eq_refl).
Defined.

Lemma H5Dataset_default_item_witness :
  H5Dataset_init matrix_file ["images"] None None ∅ = Ok matrix_dataset ∧
  ∃ raws,
    H5Dataset_getitem matrix_dataset 1 =
      Ok (VTuple (map (λ raw, VTensor (Tensor raw false)) raws)) ∧
    length raws = 1%nat.
Proof.
  assert (H5Dataset_init matrix_file ["images"] None None ∅ = Ok matrix_dataset)
    as Hinit by reflexivity.
  split; [exact Hinit|].
  destruct (H5Dataset_default_item matrix_file ["images"] None ∅ matrix_dataset 1 Hinit)
    as (raws & Hitem & Hlen & _).
  - intros d _. reflexivity.
  - intros key rs r Hkey Hrs Hr. each_member Hkey.
    vm_compute in Hrs. injection Hrs as <-.
    each_member Hr; eexists; reflexivity.
  - intros m [= <-]. split; [discriminate|reflexivity].
  - exists raws. split; [exact Hitem|exact Hlen].
Defined.

Example matrix_dataset_item :
  H5Dataset_getitem matrix_dataset 1 =
    Ok (VTuple [VTensor (Tensor (ints [12; 13]) false)]).
Proof. reflexivity. Qed.

Lemma images_items_fetched (i : nat) (v : value) :
  images_items !! i = Some v → H5Dataset_getitem images_dataset (Z.of_nat i) = Ok v.
Proof.
  destruct i as [|[|i]]; cbn [images_items lookup list_lookup].
  - intros [= <-]. reflexivity.
  - intros [= <-]. reflexivity.
  - intros H. discriminate H.
Defined.

Lemma H5Dataset_iter_items_witness :
  H5Dataset_len images_dataset = Ok 2 ∧
  H5Dataset_iter images_dataset = (images_items, None).
Proof.
  split; [reflexivity|].
  exact (H5Dataset_iter_items images_dataset 2 images_items eq_refl eq_refl
           images_items_fetched).
Defined.

Lemma H5Dataset_iter_stops_witness :
  H5Dataset_init matched_file ["images"; "responses"] None None images_attrs =
    Ok listing_dataset ∧
  H5Dataset_getitem listing_dataset 0 = Raise TypeError ∧
  H5Dataset_iter listing_dataset = ([], Some TypeError).
Proof.
  split; [reflexivity|]. split; [reflexivity|].
  apply (H5Dataset_iter_stops listing_dataset 2 0 [] TypeError).
  - reflexivity.
  - split; [discriminate|reflexivity].
  - reflexivity.
  - intros i v H. discriminate H.
  - reflexivity.
Defined.

Lemma H5Dataset_without_keys_witness :
  H5Dataset_init matched_file [] None None ∅ = Ok no_key_dataset ∧
  H5Dataset_len no_key_dataset = Raise TypeError ∧
  H5Dataset_iter no_key_dataset = ([], Some TypeError) ∧
  H5Dataset_getitem no_key_dataset 5 = Ok (VTuple []).
Proof.
  assert (H5Dataset_init matched_file [] None None ∅ = Ok no_key_dataset)
    as Hinit by reflexivity.
  split; [exact Hinit|].
  destruct (H5Dataset_without_keys matched_file None None ∅ no_key_dataset 5 Hinit)
    as (Hlen & Hiter & Hitem).
  split; [exact Hlen|]. split; [exact Hiter|exact (Hitem eq_refl)].
Defined.

Lemma two_arrays_rows (d : ndarray (scalar := number)) :
  d ∈ [ints [1; 2]; ints [3; 4]] → ∃ rs, d = Rows rs ∧ Z.of_nat (length rs) = 2.
Proof. intros Hd. each_member Hd; eexists; split; reflexivity. Defined.

Lemma array_datasets_constructed_witness :
  NumpyDataset_init [ints [1; 2]; ints [3; 4]] =
    Ok {| NP_data := [ints [1; 2]; ints [3; 4]] |} ∧
  ∃ self,
    MultiTensorDataset_init number_to_float32 [ints [1; 2]; ints [3; 4]] None = Ok self ∧
    MultiTensorDataset_len self = Ok 2.
Proof.
  destruct (array_datasets_constructed number_to_float32 2 [ints [1; 2]; ints [3; 4]]
              None two_arrays_rows) as (Hnp & self & Hinit & _ & _ & Hlen).
  split; [exact Hnp|]. exists self. split; [exact Hinit|]. apply Hlen. discriminate.
Defined.

Lemma array_datasets_validate_alike_witness :
  NumpyDataset_init [ints [1]; ints [2; 3]] =
    Raise (AssertionError "datasets must have same first dimension") ∧
  MultiTensorDataset_init number_to_float32 [ints [1]; ints [2; 3]] None =
    Raise (AssertionError "datasets must have same first dimension").
Proof.
  assert (NumpyDataset_init [ints [1]; ints [2; 3]] =
            Raise (AssertionError "datasets must have same first dimension"))
    as Hnp by reflexivity.
  split; [exact Hnp|].
  exact (proj1 (array_datasets_validate_alike number_to_float32 _ None _) Hnp).
Defined.

Lemma zero_dimensional_field_witness :
  NumpyDataset_init [ints [1; 2]; Item (int64, 5); ints [3; 4]] = Raise IndexError ∧
  MultiTensorDataset_init number_to_float32
    [ints [1; 2]; Item (int64, 5); ints [3; 4]] None = Raise IndexError.
Proof.
  apply (zero_dimensional_field number_to_float32 2 [ints [1; 2]] (int64, 5)
           [ints [3; 4]] None).
  intros d Hd. each_member Hd. eexists; split; reflexivity.
Defined.

Lemma two_fields_constructed :
  MultiTensorDataset_init number_to_float32 [ints [1; 2]; ints [3; 4]] None =
    Ok two_fields.
Proof. reflexivity. Defined.

Lemma cuda_cpu_round_trip_witness :
  MultiTensorDataset_init number_to_float32 [ints [1; 2]; ints [3; 4]] None =
    Ok two_fields ∧
  MT_data (cuda_ two_fields).2 =
    [VTensor (Tensor (floats [1; 2]) true); VTensor (Tensor (floats [3; 4]) true)] ∧
  cpu_ (cuda_ two_fields).2 = (Ok tt, two_fields).
Proof.
  split; [exact two_fields_constructed|].
  destruct (cuda_cpu_round_trip number_to_float32 _ None two_fields two_fields_constructed)
    as (_ & Hdata & _ & Hback & _).
  split; [exact Hdata|exact Hback].
Defined.

Lemma cuda_keeps_items_witness :
  MultiTensorDataset_getitem two_fields 1 =
    Ok (VTuple [VTensor (Tensor (Item (float32, 2)) false);
                VTensor (Tensor (Item (float32, 4)) false)]) ∧
  ∃ moved,
    for_each cuda [VTensor (Tensor (Item (float32, 2)) false);
                   VTensor (Tensor (Item (float32, 4)) false)] = Ok moved ∧
    MultiTensorDataset_getitem (cuda_ two_fields).2 1 = Ok (VTuple moved).
Proof.
  split; [reflexivity|].
  destruct (cuda_keeps_items number_to_float32 _ two_fields 1 two_fields_constructed)
    as (_ & Hitems & _).
  exact (Hitems _ eq_refl).
Defined.

Lemma MultiTensorDataset_index_range_witness :
  MultiTensorDataset_len two_fields = Ok 2 ∧
  MultiTensorDataset_getitem two_fields (-3) = Raise IndexError ∧
  MultiTensorDataset_getitem two_fields (1 - 2) = MultiTensorDataset_getitem two_fields 1.
Proof.
  assert (MultiTensorDataset_len two_fields = Ok 2) as Hlen by reflexivity.
  split; [exact Hlen|]. split.
  - apply (proj1 (MultiTensorDataset_index_range number_to_float32 _ None two_fields 2 (-3)
                    two_fields_constructed Hlen)).
    left. reflexivity.
  - apply (proj2 (MultiTensorDataset_index_range number_to_float32 _ None two_fields 2 1
                    two_fields_constructed Hlen)).
    split; [discriminate|reflexivity].
Defined.

Lemma NumpyDataset_getitem_items_witness :
  NumpyDataset_init [ints [1; 2]; ints [3; 4]] =
    Ok {| NP_data := [ints [1; 2]; ints [3; 4]] |} ∧
  (∃ raws, NumpyDataset_getitem {| NP_data := [ints [1; 2]; ints [3; 4]] |} (-1) =
             Ok (VTuple (map VArray raws)) ∧
           length raws = 2%nat) ∧
  NumpyDataset_getitem {| NP_data := [ints [1; 2]; ints [3; 4]] |} 2 = Raise IndexError.
Proof.
  assert (NumpyDataset_init [ints [1; 2]; ints [3; 4]] =
            Ok {| NP_data := [ints [1; 2]; ints [3; 4]] |}) as Hinit by reflexivity.
  split; [exact Hinit|]. split.
  - destruct (proj1 (NumpyDataset_getitem_items _ _ (ints [1; 2]) 2 (-1)
                       Hinit eq_refl eq_refl)) as (raws & Hitem & Hlen & _).
    { split; [discriminate|reflexivity]. }
    exists raws. split; [exact Hitem|exact Hlen].
  - apply (proj2 (NumpyDataset_getitem_items _ _ (ints [1; 2]) 2 2
                    Hinit eq_refl eq_refl)).
    right. discriminate.
Defined.

Lemma long_lists_length (xs : list (value (scalar := number))) :
  xs ∈ long_lists → Z.of_nat (length xs) = 3.
Proof. intros Hxs. each_member Hxs; reflexivity. Defined.

Lemma short_lists_length (xs : list (value (scalar := number))) :
  xs ∈ short_lists → Z.of_nat (length xs) = 1.
Proof. intros Hxs. each_member Hxs; reflexivity. Defined.

Lemma ListDataset_getitem_items_witness :
  ∃ self entries,
    ListDataset_init (map VList long_lists) None = Ok self ∧
    length entries = 2%nat ∧
    ListDataset_getitem self 1 = Ok (VTuple entries).
Proof.
  destruct (ListDataset_getitem_items 3 long_lists None 1 long_lists_length)
    as (self & Hinit & Hitem).
  destruct Hitem as (entries & Hlen & _ & Hget).
  { split; [discriminate|reflexivity]. }
  exists self, entries. split; [exact Hinit|]. split; [exact Hlen|exact Hget].
Defined.

Lemma ListDataset_item_at_length_witness :
  (∃ entries,
     ListDataset_getitem {| LD_transform := None; LD_data := map VList long_lists |} 2 =
       Ok (VTuple entries)) ∧
  ListDataset_getitem {| LD_transform := None; LD_data := map VList short_lists |} 2 =
    Raise IndexError.
Proof.
  split.
  - destruct (ListDataset_item_at_length 3 long_lists None
                {| LD_transform := None; LD_data := map VList long_lists |}
                long_lists_length) as (_ & _ & Hlong);
      [discriminate|reflexivity|].
    destruct Hlong as (entries & _ & Hget); [reflexivity|].
    exists entries. exact Hget.
  - destruct (ListDataset_item_at_length 1 short_lists None
                {| LD_transform := None; LD_data := map VList short_lists |}
                short_lists_length) as (_ & Hshort & _);
      [discriminate|reflexivity|].
    apply Hshort. discriminate.
Defined.

Lemma to_variable_yields_per_element_witness :
  (to_variable (scalar := number) [VTuple [VInt 1]; VInt 2; VTuple [VInt 3]]
               false None []).2 ≠ None ∧
  length (to_variable (scalar := number) [VTuple [VInt 1]; VInt 2; VTuple [VInt 3]]
                      false None []).1 ≠ 3%nat.
Proof.
  assert ((to_variable (scalar := number) [VTuple [VInt 1]; VInt 2; VTuple [VInt 3]]
                       false None []).2 ≠ None) as Hraised by discriminate.
  split; [exact Hraised|].
  intros Hlen. apply Hraised.
  exact (proj2 (proj2 (to_variable_yields_per_element
                         [VTuple [VInt 1]; VInt 2; VTuple [VInt 3]] false None [])) Hlen).
Defined.

Lemma to_variable_filter_all_false_witness :
  Forall (λ f, f = false) [false; false] ∧
  to_variable_round (scalar := number) true [] (Some [false; false])
                    (VTuple [VInt 1; VInt 2; VInt 3]) =
    Ok (VTuple [VInt 1; VInt 2], Some [false; false]).
Proof.
  assert (Forall (λ f, f = false) [false; false]) as Hmask
    by (repeat constructor).
  split; [exact Hmask|].
  exact (to_variable_filter_all_false true [] [false; false]
           (VTuple [VInt 1; VInt 2; VInt 3]) [VInt 1; VInt 2; VInt 3] Hmask eq_refl).
Defined.

Lemma to_variable_cuda_without_method_witness :
  cuda (scalar := number) (VInt 2) = Raise (AttributeError "cuda") ∧
  to_variable (scalar := number)
    [VTuple [VTensor (Tensor (ints [1]) false)]; VTuple [VInt 2]; VTuple [VInt 3]]
    true (Some [true]) [] =
    ([VTuple [VVariable (VTensor (Tensor (ints [1]) true)) []]],
     Some (AttributeError "cuda")).
Proof.
  split; [reflexivity|].
  exact (proj2 (to_variable_cuda_without_method [] [true] (VTuple [VInt 2]) [VInt 2]
                  0 (VInt 2) (AttributeError "cuda")
                  [VTuple [VTensor (Tensor (ints [1]) false)]] [VTuple [VInt 3]]
                  eq_refl eq_refl eq_refl eq_refl) eq_refl).
Defined.

Lemma to_variable_bare_element_witness :
  to_variable_round false [] None (VTensor (Tensor (ints [1; 2]) false)) =
    Ok (VTuple [VVariable (VTensor (Tensor (Item (int64, 1)) false)) []], Some [true]) ∧
  ∃ entries,
    VTuple [VVariable (VTensor (Tensor (Item (int64, 1)) false)) []] = VTuple entries ∧
    (length entries ≤ 1)%nat.
Proof.
  assert (to_variable_round false [] None (VTensor (Tensor (ints [1; 2]) false)) =
    Ok (VTuple [VVariable (VTensor (Tensor (Item (int64, 1)) false)) []], Some [true]))
    as Hround by reflexivity.
  split; [exact Hround|].
  exact (proj1 (proj2 (to_variable_bare_element false []
                         (VTensor (Tensor (ints [1; 2]) false)) (VInt 0) _ _
                         eq_refl Hround))).
Defined.
